(** * MParsing: the Wildberries price-retrieval engine

    A shallow embedding of [src/api/wb_api.py] (class [WildberriesAPI]),
    [src/parsers/wb_parser.py] (class [WildberriesParser]) and the loop over
    the cabinets of [src/main.py], and the properties of the specification
    that can be settled on it.

    Conventions of the model.
    - Python [str] is [string]; text is ASCII: [\d], [str.isdigit] and
      [str.strip] are modelled on their ASCII ranges.
    - Decoded JSON is the inductive [json]; numbers are integers.
    - Time is an integer number of milliseconds: [time.sleep(0.6)] is a sleep
      of [600], [6.0] seconds are [6000].
    - The network is a function from the index of a request and the request
      to a reply; every call of [session.request] and of [time.sleep] is
      appended to a trace.
    - Python exceptions that the code does not catch are the [Raise] results
      of the monad [M].
    - Logging has no effect on the results and is left out. *)

From Stdlib Require Import ZArith List String Ascii Bool Arith Lia.
From Stdlib Require Import Numbers.DecimalString.
Import ListNotations.

Set Warnings "-register-all".

Local Open Scope string_scope.
Local Open Scope list_scope.

(* ===================================================================== *)
(** ** Python strings *)
(* ===================================================================== *)

Module PyStr.

(** [c in "0123456789"] *)
Definition is_digit (c : ascii) : bool :=
  let n := nat_of_ascii c in (48 <=? n)%nat && (n <=? 57)%nat.

(** ASCII characters for which [str.isspace] holds: TAB, LF, VT, FF, CR,
    FS, GS, RS, US and the space. *)
Definition is_space (c : ascii) : bool :=
  let n := nat_of_ascii c in
  ((9 <=? n)%nat && (n <=? 13)%nat) || ((28 <=? n)%nat && (n <=? 32)%nat).

Fixpoint all_digits (s : string) : bool :=
  match s with
  | EmptyString => true
  | String c s' => is_digit c && all_digits s'
  end.

(** [s.isdigit()]: non-empty and made of digits only. *)
Definition isdigit (s : string) : bool :=
  match s with
  | EmptyString => false
  | _ => all_digits s
  end.

(** [s.startswith(p)] *)
Definition startswith (s p : string) : bool := String.prefix p s.

Fixpoint lstrip (s : string) : string :=
  match s with
  | EmptyString => EmptyString
  | String c s' => if is_space c then lstrip s' else s
  end.

Fixpoint rstrip (s : string) : string :=
  match s with
  | EmptyString => EmptyString
  | String c s' =>
      match rstrip s' with
      | EmptyString => if is_space c then EmptyString else String c EmptyString
      | r => String c r
      end
  end.

(** [s.strip()] *)
Definition strip (s : string) : string := rstrip (lstrip s).

(** [s[n:]] *)
Fixpoint drop (n : nat) (s : string) : string :=
  match n, s with
  | O, _ => s
  | S _, EmptyString => EmptyString
  | S n', String _ s' => drop n' s'
  end.

(** The longest prefix of digits, which is what a greedy [\d+] or [\d{6,}]
    consumes first, and the rest of the string. *)
Fixpoint span_digits (s : string) : string * string :=
  match s with
  | EmptyString => (EmptyString, EmptyString)
  | String c s' =>
      if is_digit c
      then let (d, r) := span_digits s' in (String c d, r)
      else (EmptyString, s)
  end.

(** [needle in s] for strings. *)
Fixpoint contains (needle s : string) : bool :=
  String.prefix needle s ||
  match s with
  | EmptyString => false
  | String _ s' => contains needle s'
  end.

(** [int(s)] on a string of ASCII digits. *)
Fixpoint int_acc (acc : Z) (s : string) : Z :=
  match s with
  | EmptyString => acc
  | String c s' => int_acc (10 * acc + Z.of_nat (nat_of_ascii c - 48)) s'
  end.

Definition int_of_digits (s : string) : Z := int_acc 0 s.

(** [str(n)] for an integer. *)
Definition str_of_int (n : Z) : string := NilEmpty.string_of_int (Z.to_int n).

End PyStr.

(* ===================================================================== *)
(** ** [re.search] for the two patterns of [_extract_article_from_url] *)
(* ===================================================================== *)

Module Re.
Import PyStr.

(** A match of [/catalog/(\d+)/detail\.aspx] that starts at the head of [s];
    the result is group 1.  The greedy [\d+] takes every digit; giving one
    back leaves a digit where [/] is required, so backtracking cannot
    produce another match at this position. *)
Definition catalog_here (s : string) : option string :=
  if String.prefix "/catalog/" s then
    let (d, r) := span_digits (drop 9 s) in
    match d with
    | EmptyString => None
    | _ => if String.prefix "/detail.aspx" r then Some d else None
    end
  else None.

(** A match of [/(\d{6,})/] that starts at the head of [s]. *)
Definition segment_here (s : string) : option string :=
  if String.prefix "/" s then
    let (d, r) := span_digits (drop 1 s) in
    if (6 <=? String.length d)%nat && String.prefix "/" r then Some d else None
  else None.

(** [re.search]: the match at the leftmost position that has one. *)
Fixpoint search (here : string -> option string) (s : string) : option string :=
  match here s with
  | Some g => Some g
  | None =>
      match s with
      | EmptyString => None
      | String _ s' => search here s'
      end
  end.

End Re.

(* ===================================================================== *)
(** ** The transport client: construction and identifier normalisation *)
(* ===================================================================== *)

Import PyStr.

Definition BASE_URL : string := "https://suppliers-api.wildberries.ru".
Definition PRICES_BASE_URL : string := "https://discounts-prices-api.wildberries.ru".

(** The fields [__init__] sets; [headers] are the session headers it adds. *)
Record WildberriesAPI : Type := {
  api_key : string;
  request_delay : Z;
  headers : list (string * string)
}.

(** [api_key if api_key.startswith("Bearer ") else api_key] *)
Definition auth_header (key : string) : string :=
  if startswith key "Bearer " then key else key.

Definition init (key : string) (delay : Z) : WildberriesAPI :=
  {| api_key := key;
     request_delay := delay;
     headers := [("Authorization", auth_header key);
                 ("Content-Type", "application/json")] |}.

(** [session.headers[name]] *)
Fixpoint header (name : string) (hs : list (string * string)) : option string :=
  match hs with
  | [] => None
  | (k, v) :: hs' => if String.eqb k name then Some v else header name hs'
  end.

Definition _extract_article_from_url (article : string) : string :=
  if startswith article "http" then
    match Re.search Re.catalog_here article with
    | Some g => g
    | None =>
        match Re.search Re.segment_here article with
        | Some g => g
        | None => strip article
        end
    end
  else strip article.

(* ===================================================================== *)
(** ** Python values decoded from JSON *)
(* ===================================================================== *)

(** A decoded JSON document.  [JDict] keeps the items of a [dict] in
    insertion order; its keys are distinct, as the keys of a [dict] are. *)
Inductive json : Type :=
| JNull
| JBool (b : bool)
| JInt (n : Z)
| JStr (s : string)
| JList (items : list json)
| JDict (items : list (string * json)).

(** The exceptions of the interpreter that the modelled code can meet and
    does not catch. *)
Inductive exn : Type := TypeError | AttributeError | KeyError | ValueError.

Inductive res (A : Type) : Type :=
| Ok (a : A)
| Raise (e : exn).

Arguments Ok {A} a.
Arguments Raise {A} e.

Definition res_bind {A B} (r : res A) (k : A -> res B) : res B :=
  match r with
  | Ok a => k a
  | Raise e => Raise e
  end.

Notation "'let?' x ':=' r 'in' k" := (res_bind r (fun x => k))
  (at level 10, x name, r at level 100, k at level 200).

Module Py.

(** [bool(x)] *)
Definition truthy (x : json) : bool :=
  match x with
  | JNull => false
  | JBool b => b
  | JInt n => negb (n =? 0)%Z
  | JStr s => negb (String.eqb s "")
  | JList l => match l with [] => false | _ => true end
  | JDict d => match d with [] => false | _ => true end
  end.

(** [a or b] *)
Definition or_ (a b : json) : json := if truthy a then a else b.

(** The lookup of a key among the items of a [dict]. *)
Fixpoint lookup (k : string) (d : list (string * json)) : option json :=
  match d with
  | [] => None
  | (k', v) :: d' => if String.eqb k' k then Some v else lookup k d'
  end.

Definition has_key (k : string) (d : list (string * json)) : bool :=
  match lookup k d with Some _ => true | None => false end.

(** [d.get(k, default)] on the items of a [dict]; a value that is not a
    [dict] has no [get], and the call is an [AttributeError]. *)
Definition dict_get (d : list (string * json)) (k : string) (default : json) : json :=
  match lookup k d with
  | Some v => v
  | None => default
  end.

Definition is_str (k : string) (x : json) : bool :=
  match x with
  | JStr s => String.eqb s k
  | _ => false
  end.

(** [k in x] for a string [k]: a key of a [dict], an element of a [list], a
    substring of a [str]; the other values are not containers. *)
Definition contains (k : string) (x : json) : res bool :=
  match x with
  | JDict d => Ok (has_key k d)
  | JList l => Ok (existsb (is_str k) l)
  | JStr s => Ok (PyStr.contains k s)
  | _ => Raise TypeError
  end.

(** [x[k]] for a string [k]. *)
Definition getitem (x : json) (k : string) : res json :=
  match x with
  | JDict d => match lookup k d with Some v => Ok v | None => Raise KeyError end
  | _ => Raise TypeError
  end.

(** The elements that [for y in x] and [list.extend(x)] go through, which
    are also those [len(x)] counts: the elements of a [list], the keys of a
    [dict], the characters of a [str]. *)
Definition iter (x : json) : res (list json) :=
  match x with
  | JList l => Ok l
  | JDict d => Ok (map (fun kv => JStr (fst kv)) d)
  | JStr s => Ok (map (fun c => JStr (String c EmptyString)) (list_ascii_of_string s))
  | _ => Raise TypeError
  end.

Definition hex_digit (n : nat) : ascii :=
  ascii_of_nat (if (n <? 10)%nat then 48 + n else 87 + n).

Definition squote : ascii := ascii_of_nat 39.
Definition dquote : ascii := ascii_of_nat 34.
Definition backslash : ascii := ascii_of_nat 92.

Fixpoint has_char (c : ascii) (s : string) : bool :=
  match s with
  | EmptyString => false
  | String c' s' => Ascii.eqb c' c || has_char c s'
  end.

Fixpoint escape (quote : ascii) (s : string) : string :=
  match s with
  | EmptyString => EmptyString
  | String c s' =>
      let n := nat_of_ascii c in
      let tail := escape quote s' in
      if Ascii.eqb c quote || Ascii.eqb c backslash then String backslash (String c tail)
      else if (n =? 9)%nat then String backslash (String "t" tail)
      else if (n =? 10)%nat then String backslash (String "n" tail)
      else if (n =? 13)%nat then String backslash (String "r" tail)
      else if (n <? 32)%nat || (n =? 127)%nat
      then String backslash
             (String "x" (String (hex_digit (n / 16)) (String (hex_digit (n mod 16)) tail)))
      else String c tail
  end.

(** [repr(s)] of a string: single quotes, unless the string holds a single
    quote and no double quote. *)
Definition repr_str (s : string) : string :=
  let quote := if has_char squote s && negb (has_char dquote s) then dquote else squote in
  String quote (escape quote s ++ String quote EmptyString)%string.

Fixpoint join (sep : string) (l : list string) : string :=
  match l with
  | [] => EmptyString
  | [s] => s
  | s :: l' => (s ++ sep ++ join sep l')%string
  end.

(** [repr(x)] *)
Fixpoint repr (x : json) : string :=
  match x with
  | JNull => "None"
  | JBool true => "True"
  | JBool false => "False"
  | JInt n => str_of_int n
  | JStr s => repr_str s
  | JList l => ("[" ++ join ", " (map repr l) ++ "]")%string
  | JDict d =>
      ("{" ++ join ", " (map (fun kv => repr_str (fst kv) ++ ": " ++ repr (snd kv)) d)
           ++ "}")%string
  end.

(** [str(x)] *)
Definition str (x : json) : string :=
  match x with
  | JStr s => s
  | _ => repr x
  end.

End Py.

(* ===================================================================== *)
(** ** The network, the clock and the monad of effects *)
(* ===================================================================== *)

(** The arguments of [session.request]. *)
Record request : Type := {
  method : string;
  url : string;
  params : option json;
  json_data : option json;
  timeout : Z
}.

(** The [Retry-After] header of a response: [Seconds n] when [int] accepts
    its text and gives [n]; [Unparsable] when [int] rejects it, as it does an
    HTTP date. *)
Inductive retry_header : Type :=
| Seconds (n : Z)
| Unparsable.

(** What the code reads of a [requests.Response]: [body] is the value of
    [response.json()], [None] when the body is not JSON (the call then raises
    [JSONDecodeError], which is a [RequestException]); [retry_after] is the
    [Retry-After] header when the header is there. *)
Record response : Type := {
  status_code : Z;
  body : option json;
  retry_after : option retry_header
}.

(** [session.request] returns a response or raises a [RequestException]. *)
Inductive outcome : Type :=
| Responded (r : response)
| Failed.

Record reply : Type := {
  latency : N;
  result : outcome
}.

Inductive event : Type :=
| Sent (at_time : Z) (req : request)
| Slept (at_time : Z) (duration : Z).

Record world : Type := {
  now : Z;
  trace : list event
}.

(** The remote side: it sees the history and the request. *)
Definition server : Type := world -> request -> reply.

Definition M (A : Type) : Type := world -> res A * world.

Definition ret {A} (a : A) : M A := fun w => (Ok a, w).

Definition bind {A B} (m : M A) (k : A -> M B) : M B :=
  fun w =>
    match m w with
    | (Ok a, w') => k a w'
    | (Raise e, w') => (Raise e, w')
    end.

Definition lift {A} (r : res A) : M A := fun w => (r, w).

Notation "x <- m ;; k" := (bind m (fun x => k))
  (at level 61, m at next level, right associativity).

(** [time.time()] *)
Definition time_time : M Z := fun w => (Ok (now w), w).

(** [time.sleep(d)]: a negative length is a [ValueError]. *)
Definition time_sleep (d : Z) : M unit :=
  fun w =>
    if (d <? 0)%Z then (Raise ValueError, w)
    else (Ok tt, {| now := (now w + d)%Z; trace := trace w ++ [Slept (now w) d] |}).

(** [int(response.headers.get("Retry-After", 6))]: 6 without the header, a
    [ValueError] on a header that is not an integer. *)
Definition retry_seconds (h : option retry_header) : res Z :=
  match h with
  | None => Ok 6%Z
  | Some (Seconds n) => Ok n
  | Some Unparsable => Raise ValueError
  end.

(** [raise_for_status()] raises [HTTPError] on a 4xx or 5xx status. *)
Definition is_error_status (s : Z) : bool := ((400 <=? s) && (s <? 600))%Z.

(** [l[i:j]] for [i <= j] *)
Definition slice {A} (l : list A) (i j : nat) : list A := firstn (j - i) (skipn i l).

(** [range(0, stop, step)] *)
Definition range_step (stop step : nat) : list nat :=
  map (fun k => k * step) (seq 0 ((stop + step - 1) / step)).

Definition batch_size : nat := 100.

(** [[l[i:i + batch_size] for i in range(0, len(l), batch_size)]] *)
Definition batches {A} (l : list A) : list (list A) :=
  map (fun i => slice l i (i + batch_size)) (range_step (List.length l) batch_size).

Section Client.

Variable srv : server.

(** [self.session.request(...)] *)
Definition session_request (req : request) : M outcome :=
  fun w =>
    let rp := srv w req in
    (Ok (result rp),
     {| now := (now w + Z.of_N (latency rp))%Z; trace := trace w ++ [Sent (now w) req] |}).

(** The value a function returns for Python's [None] is [JNull]. *)
Definition _make_request (self : WildberriesAPI) (method_ endpoint : string)
    (params_ json_data_ : option json) (timeout_ : Z) : M json :=
  let url_ := (BASE_URL ++ endpoint)%string in
  out <- session_request {| method := method_; url := url_; params := params_;
                            json_data := json_data_; timeout := timeout_ |} ;;
  match out with
  | Failed => ret JNull
  | Responded r =>
      if is_error_status (status_code r) then ret JNull
      else
        _ <- time_sleep (request_delay self) ;;
        match body r with
        | Some v => ret v
        | None => ret JNull
        end
  end.

(* --------------------------------------------------------------------- *)
(** *** [get_prices_by_articles] *)

Definition filter_endpoint : string := "/api/v2/list/goods/filter".
Definition filter_url : string := (PRICES_BASE_URL ++ filter_endpoint)%string.

Definition post_nmList (nm_ids : list Z) : request :=
  {| method := "POST"; url := filter_url; params := None;
     json_data := Some (JDict [("nmList", JList (map JInt nm_ids))]); timeout := 30 |}.

Definition get_listing : request :=
  {| method := "GET"; url := filter_url;
     params := Some (JDict [("limit", JInt 1000); ("offset", JInt 0)]);
     json_data := None; timeout := 30 |}.

(** The local variables the Strategy A loop updates. *)
Record loop_state : Type := {
  all_results : list json;
  request_count : Z;
  start_time : Z
}.

(** Lines 267-279: what a decoded 200 body adds to [all_results] in
    Strategy A.  [len(goods)] in the log line and [extend(goods)] fail on the
    same values. *)
Definition absorb_A (result_ : json) (acc : list json) : res (list json) :=
  if Py.truthy result_ then
    let? has_data := Py.contains "data" result_ in
    if has_data then
      let? data := Py.getitem result_ "data" in
      match data with
      | JDict d =>
          if Py.has_key "listGoods" d then
            let? goods := Py.getitem data "listGoods" in
            let? items := Py.iter goods in
            Ok (acc ++ items)
          else Ok acc
      | JList l => Ok (acc ++ l)
      | _ => Ok acc
      end
    else
      match result_ with
      | JList l => Ok (acc ++ l)
      | _ => Ok acc
      end
  else Ok acc.

(** Lines 241-247: the window check before a request. *)
Definition window_check (st : loop_state) : M loop_state :=
  if (10 <=? request_count st)%Z then
    t <- time_time ;;
    let elapsed := (t - start_time st)%Z in
    _ <- (if (elapsed <? 6000)%Z then time_sleep (6000 - elapsed) else ret tt) ;;
    t' <- time_time ;;
    ret {| all_results := all_results st; request_count := 0; start_time := t' |}
  else ret st.

(** Lines 238-301: one iteration of the Strategy A loop. *)
Definition post_batch (batch : list string) (st : loop_state) : M loop_state :=
  let nm_ids := map int_of_digits batch in
  st1 <- window_check st ;;
  out <- session_request (post_nmList nm_ids) ;;
  match out with
  | Failed => ret st1
  | Responded r =>
      if (status_code r =? 200)%Z then
        match body r with
        | None => ret st1
        | Some result_ =>
            acc <- lift (absorb_A result_ (all_results st1)) ;;
            let st2 := {| all_results := acc;
                          request_count := (request_count st1 + 1)%Z;
                          start_time := start_time st1 |} in
            _ <- time_sleep 600 ;;
            ret st2
        end
      else if (status_code r =? 400)%Z then ret st1
      else if (status_code r =? 429)%Z then
        retry <- lift (retry_seconds (retry_after r)) ;;
        _ <- time_sleep (1000 * retry) ;;
        ret st1
      else ret st1
  end.

(** The [for] loop: [continue] and the end of the body both go on with the
    next batch. *)
Fixpoint strategy_A (bs : list (list string)) (st : loop_state) : M loop_state :=
  match bs with
  | [] => ret st
  | batch :: rest => st' <- post_batch batch st ;; strategy_A rest st'
  end.

(** [a or b] on strings. *)
Definition str_or (a b : string) : string := if String.eqb a "" then b else a.

(** Lines 337-341. *)
Definition good_article (good : json) : res string :=
  match good with
  | JDict d =>
      Ok (str_or (Py.str (Py.dict_get d "vendorCode" (JStr "")))
            (str_or (Py.str (Py.dict_get d "nmID" (JStr "")))
               (Py.str (Py.dict_get d "nmId" (JStr "")))))
  | _ => Raise AttributeError
  end.

(** [x in article_set], where [article_set = set(cleaned_articles)]. *)
Definition in_set (article_set : list string) (x : string) : bool :=
  existsb (String.eqb x) article_set.

(** Lines 333-343: the loop that fills [filtered_goods]. *)
Fixpoint filter_goods (article_set : list string) (goods : list json) : res (list json) :=
  match goods with
  | [] => Ok []
  | good :: rest =>
      let? a := good_article good in
      let? kept := filter_goods article_set rest in
      Ok (if in_set article_set a then good :: kept else kept)
  end.

(** Lines 324-349: what a decoded 200 body yields in Strategy B, where
    [all_results] is empty. *)
Definition absorb_B (cleaned_articles : list string) (result_ : json) : res (list json) :=
  if Py.truthy result_ then
    let? has_data := Py.contains "data" result_ in
    if has_data then
      let? data := Py.getitem result_ "data" in
      match data with
      | JDict d =>
          if Py.has_key "listGoods" d then
            let? all_goods := Py.getitem data "listGoods" in
            let? goods := Py.iter all_goods in
            filter_goods cleaned_articles goods
          else Ok []
      | JList l => Ok l
      | _ => Ok []
      end
    else Ok []
  else Ok [].

(** Lines 311-359. *)
Definition strategy_B (cleaned_articles : list string) : M (option (list json)) :=
  out <- session_request get_listing ;;
  match out with
  | Failed => ret None
  | Responded r =>
      if (status_code r =? 200)%Z then
        match body r with
        | None => ret None
        | Some result_ =>
            found <- lift (absorb_B cleaned_articles result_) ;;
            ret (match found with [] => None | _ => Some found end)
        end
      else ret None
  end.

(** Lines 223-301: Strategy A as a whole, from the initial values of the
    local variables to the end of the loop. *)
Definition strategy_A_phase (cleaned_articles : list string) : M loop_state :=
  t0 <- time_time ;;
  let st0 := {| all_results := []; request_count := 0; start_time := t0 |} in
  let numeric_articles := filter isdigit cleaned_articles in
  match numeric_articles with
  | [] => ret st0
  | _ => strategy_A (batches numeric_articles) st0
  end.

Definition get_prices_by_articles (articles : list string) : M (option (list json)) :=
  let cleaned_articles := map _extract_article_from_url articles in
  st <- strategy_A_phase cleaned_articles ;;
  match all_results st with
  | [] => strategy_B cleaned_articles
  | found => ret (Some found)
  end.

End Client.

(* ===================================================================== *)
(** ** [WildberriesParser.parse_basic_prices] *)
(* ===================================================================== *)

(** An output row is a [dict] literal: its items in the order written. *)
Definition row : Type := list (string * json).

Section Parser.

Variable srv : server.

(** [self.cabinet_name] and [self.cabinet_id] *)
Variables cabinet_name cabinet_id : string.

(** Lines 71-79: the row of an identifier whose batch got no data. *)
Definition error_row (vendor_code : string) : row :=
  [("cabinet", JStr cabinet_name);
   ("cabinet_id", JStr cabinet_id);
   ("vendor_code", JStr vendor_code);
   ("base_price", JNull);
   ("discount_price", JNull);
   ("price_with_card", JNull);
   ("error", JStr "Не удалось получить цены")].

(** Lines 94-114: the row of one size entry of an item. *)
Definition size_row (item : list (string * json)) (vendor_code nm_id size : json) : res row :=
  match size with
  | JDict sz =>
      Ok [("cabinet", JStr cabinet_name);
          ("cabinet_id", JStr cabinet_id);
          ("nm_id", nm_id);
          ("vendor_code", vendor_code);
          ("size_id", Py.dict_get sz "sizeID" JNull);
          ("size_name", Py.dict_get sz "techSizeName" (JStr ""));
          ("base_price", Py.dict_get sz "price" JNull);
          ("discounted_price", Py.dict_get sz "discountedPrice" JNull);
          ("club_discounted_price", Py.dict_get sz "clubDiscountedPrice" JNull);
          ("discount_percent", Py.dict_get item "discount" JNull);
          ("club_discount_percent", Py.dict_get item "clubDiscount" JNull);
          ("currency", Py.dict_get item "currencyIsoCode4217" (JStr "RUB"));
          ("editable_size_price", Py.dict_get item "editableSizePrice" (JBool false))]
  | _ => Raise AttributeError
  end.

(** Lines 117-135: the row of an item without sizes. *)
Definition item_row (item : list (string * json)) (vendor_code nm_id : json) : row :=
  [("cabinet", JStr cabinet_name);
   ("cabinet_id", JStr cabinet_id);
   ("nm_id", nm_id);
   ("vendor_code", vendor_code);
   ("size_id", JNull);
   ("size_name", JNull);
   ("base_price", Py.dict_get item "price" JNull);
   ("discounted_price", Py.dict_get item "discountedPrice" JNull);
   ("club_discounted_price", Py.dict_get item "clubDiscountedPrice" JNull);
   ("discount_percent", Py.dict_get item "discount" JNull);
   ("club_discount_percent", Py.dict_get item "clubDiscount" JNull);
   ("currency", Py.dict_get item "currencyIsoCode4217" (JStr "RUB"));
   ("editable_size_price", Py.dict_get item "editableSizePrice" (JBool false))].

(** The [for size in sizes] loop. *)
Fixpoint size_rows (item : list (string * json)) (vendor_code nm_id : json)
    (sizes : list json) : res (list row) :=
  match sizes with
  | [] => Ok []
  | size :: rest =>
      let? r := size_row item vendor_code nm_id size in
      let? rs := size_rows item vendor_code nm_id rest in
      Ok (r :: rs)
  end.

(** Lines 84-135: the rows one [price_item] adds to [all_results]. *)
Definition normalize (price_item : json) : res (list row) :=
  match price_item with
  | JDict item =>
      let vendor_code :=
        Py.or_ (Py.dict_get item "vendorCode" JNull) (Py.dict_get item "vendor_code" JNull) in
      let nm_id := Py.or_ (Py.dict_get item "nmID" JNull) (Py.dict_get item "nmId" JNull) in
      let sizes := Py.dict_get item "sizes" (JList []) in
      if Py.truthy sizes then
        let? entries := Py.iter sizes in
        size_rows item vendor_code nm_id entries
      else Ok [item_row item vendor_code nm_id]
  | _ => Raise AttributeError
  end.

(** The [for price_item in prices_data] loop. *)
Fixpoint normalize_all (prices_data : list json) : res (list row) :=
  match prices_data with
  | [] => Ok []
  | price_item :: rest =>
      let? rs := normalize price_item in
      let? rs' := normalize_all rest in
      Ok (rs ++ rs')
  end.

(** Lines 65-135: the rows one batch adds.  [not prices_data] holds for
    [None] and for the empty list. *)
Definition batch_rows (batch : list string) : M (list row) :=
  prices_data <- get_prices_by_articles srv batch ;;
  match prices_data with
  | None | Some [] => ret (map error_row batch)
  | Some data => lift (normalize_all data)
  end.

(** Lines 57-135: the loop over the batches. *)
Fixpoint parse_batches (bs : list (list string)) (all_rows : list row) : M (list row) :=
  match bs with
  | [] => ret all_rows
  | batch :: rest =>
      rows <- batch_rows batch ;;
      parse_batches rest (all_rows ++ rows)
  end.

(** [read_articles] is the outcome of [find_articles_file] and
    [read_wb_articles], which are not part of the sources at hand: [None]
    when no file is found, otherwise the identifiers read from it. *)
Definition parse_basic_prices (read_articles : option (list string)) : M (list row) :=
  match read_articles with
  | None => ret []
  | Some [] => ret []
  | Some vendor_codes => parse_batches (batches vendor_codes) []
  end.

End Parser.

(* ===================================================================== *)
(** ** The other requests of the client *)
(* ===================================================================== *)

(** [x.get(k, default)]: only a [dict] has the method. *)
Definition json_get (x : json) (k : string) (default : json) : res json :=
  match x with
  | JDict d => Ok (Py.dict_get d k default)
  | _ => Raise AttributeError
  end.

Section Catalogue.

Variable srv : server.

Definition content_endpoint : string := "/content/v1/cards/cursor/list".

(** Lines 81-102; [None] is [JNull]. *)
Definition get_content (self : WildberriesAPI) (limit offset : Z) : M json :=
  let params_ := JDict [("limit", JInt (Z.min limit 1000)); ("offset", JInt offset)] in
  result_ <- _make_request srv self "POST" content_endpoint None (Some params_) 30 ;;
  if Py.truthy result_ then
    has_data <- lift (Py.contains "data" result_) ;;
    if has_data then
      data <- lift (Py.getitem result_ "data") ;;
      lift (json_get data "cards" (JList []))
    else ret JNull
  else ret JNull.

(** Lines 116-128: the [while True] loop, with the number of iterations it
    may still make; [None] is the loop cut short by that number, which the
    code has no counterpart of. *)
Fixpoint get_all_products_loop (fuel : nat) (self : WildberriesAPI)
    (all_products : list json) (offset : Z) : M (option (list json)) :=
  match fuel with
  | O => ret None
  | S fuel' =>
      products <- get_content self 1000 offset ;;
      if Py.truthy products then
        items <- lift (Py.iter products) ;;
        let all_products' := all_products ++ items in
        if (Z.of_nat (List.length items) <? 1000)%Z then ret (Some all_products')
        else get_all_products_loop fuel' self all_products' (offset + 1000)%Z
      else ret (Some all_products)
  end.

(** Lines 104-131. *)
Definition get_all_products (fuel : nat) (self : WildberriesAPI) : M (option (list json)) :=
  get_all_products_loop fuel self [] 0%Z.

Definition size_endpoint : string := "/api/v2/list/goods/size/nm".

Definition get_size_prices (nm_id : Z) : request :=
  {| method := "GET"; url := (PRICES_BASE_URL ++ size_endpoint)%string;
     params := Some (JDict [("nm", JInt nm_id)]); json_data := None; timeout := 30 |}.

(** Lines 361-395: the second definition of the method, which is the one
    the class keeps.  The body is decoded before the sleep. *)
Definition get_prices_by_nm_id (self : WildberriesAPI) (nm_id : Z) : M json :=
  out <- session_request srv (get_size_prices nm_id) ;;
  match out with
  | Failed => ret JNull
  | Responded r =>
      if is_error_status (status_code r) then ret JNull
      else
        match body r with
        | None => ret JNull
        | Some v => _ <- time_sleep (request_delay self) ;; ret v
        end
  end.

End Catalogue.

(* ===================================================================== *)
(** ** [main]: the loop over the cabinets *)
(* ===================================================================== *)

(** [try: m except Exception: handler] *)
Definition catch {A} (m : M A) (handler : exn -> M A) : M A :=
  fun w =>
    match m w with
    | (Ok a, w') => (Ok a, w')
    | (Raise e, w') => handler e w'
    end.

(** [not s] for a value that is a string or [None]. *)
Definition missing (s : option string) : bool :=
  match s with
  | None => true
  | Some s' => String.eqb s' ""
  end.

(** [d.get(k)] on the items of a dictionary of strings. *)
Fixpoint setting (k : string) (d : list (string * option string)) : option string :=
  match d with
  | [] => None
  | (k', v) :: d' => if String.eqb k' k then v else setting k d'
  end.

Section Main.

Variable srv : server.

(** What [find_articles_file] and [read_wb_articles] give on each call. *)
Variable read_articles : option (list string).

(** [settings.get_wb_cabinet_ids()] *)
Variable wb_cabinet_ids : list (string * option string).

(** Lines 56-74 of [main.py]: the [try] block for one cabinet.  The parser
    is built and its rows are appended; any exception leaves [all_results]
    as it was.  The key and the delay given to the parser go to the session
    headers and to [request_delay], which [parse_basic_prices] does not
    read. *)
Definition process_cabinet (cabinet_name cabinet_id : string) (all_results : list row)
    : M (list row) :=
  catch (basic_prices <- parse_basic_prices srv cabinet_name cabinet_id read_articles ;;
         ret (all_results ++ basic_prices))
        (fun _ => ret all_results).

(** The string behind a setting that is not [missing]. *)
Definition value (s : option string) : string :=
  match s with
  | Some s' => s'
  | None => EmptyString
  end.

(** Lines 45-74 of [main.py]: the loop over [wb_api_keys.items()]. *)
Fixpoint process_cabinets (wb_api_keys : list (string * option string))
    (all_results : list row) : M (list row) :=
  match wb_api_keys with
  | [] => ret all_results
  | (cabinet_name, key) :: rest =>
      if missing key then process_cabinets rest all_results
      else
        let cabinet_id := setting cabinet_name wb_cabinet_ids in
        if missing cabinet_id then process_cabinets rest all_results
        else
          all_results' <- process_cabinet cabinet_name (value cabinet_id) all_results ;;
          process_cabinets rest all_results'
  end.

End Main.

(* ===================================================================== *)
(** ** Notions used in the statements *)
(* ===================================================================== *)

(** The world at the start of a run. *)
Definition initial_world : world := {| now := 0; trace := [] |}.

(** The world once [req] has been sent from [w] and answered by [srv]. *)
Definition after_request (srv : server) (w : world) (req : request) : world :=
  {| now := (now w + Z.of_N (latency (srv w req)))%Z;
     trace := trace w ++ [Sent (now w) req] |}.

(** The world once [d] milliseconds have been slept from [w]. *)
Definition after_sleep (w : world) (d : Z) : world :=
  {| now := (now w + d)%Z; trace := trace w ++ [Slept (now w) d] |}.

Definition is_sleep (e : event) : bool :=
  match e with
  | Slept _ _ => true
  | Sent _ _ => false
  end.

Definition is_object (x : json) : bool :=
  match x with
  | JDict _ => true
  | _ => false
  end.

(** The request [_make_request] builds from its arguments. *)
Definition base_request (method_ endpoint : string) (params_ json_data_ : option json)
    (timeout_ : Z) : request :=
  {| method := method_; url := (BASE_URL ++ endpoint)%string; params := params_;
     json_data := json_data_; timeout := timeout_ |}.

(** The reply that comes after [ms] milliseconds with the given status and
    body and, when [retry] is there, a [Retry-After] of that many seconds. *)
Definition answer (ms : N) (status : Z) (body_ : option json) (retry : option Z) : reply :=
  {| latency := ms;
     result := Responded {| status_code := status; body := body_;
                            retry_after := option_map Seconds retry |} |}.

(** A server that gives every request the same answer. *)
Definition always (ms : N) (status : Z) (body_ : option json) (retry : option Z) : server :=
  fun _ _ => answer ms status body_ retry.

(** A raw price item with two size entries, and one without sizes. *)
Definition item_two_sizes : list (string * json) :=
  [("nmID", JInt 115224606);
   ("vendorCode", JStr "SKU-1");
   ("discount", JInt 15);
   ("sizes",
    JList [JDict [("sizeID", JInt 1); ("techSizeName", JStr "S");
                  ("price", JInt 1000); ("discountedPrice", JInt 850)];
           JDict [("sizeID", JInt 2); ("techSizeName", JStr "M");
                  ("price", JInt 1200); ("discountedPrice", JInt 1020)]])].


(** The three envelopes a list of goods can arrive in. *)
Definition envelope_listGoods (goods : list json) : json :=
  JDict [("data", JDict [("listGoods", JList goods)])].

Definition envelope_data (goods : list json) : json := JDict [("data", JList goods)].

Definition envelope_bare (goods : list json) : json := JList goods.

(** The identifier fields of a listing row as strings, an absent field being
    the empty string: vendor code, [nmID], [nmId]. *)
Definition id_fields (d : list (string * json)) : list string :=
  [Py.str (Py.dict_get d "vendorCode" (JStr ""));
   Py.str (Py.dict_get d "nmID" (JStr ""));
   Py.str (Py.dict_get d "nmId" (JStr ""))].

(** Some identifier field of the row is a requested identifier. *)
Definition some_id_requested (article_set : list string) (good : json) : bool :=
  match good with
  | JDict d => existsb (in_set article_set) (id_fields d)
  | _ => false
  end.

Fixpoint first_nonempty (l : list string) : string :=
  match l with
  | [] => EmptyString
  | s :: l' => if String.eqb s "" then first_nonempty l' else s
  end.

(** The first identifier field of the row that is not empty is a requested
    identifier. *)
Definition leading_id_requested (article_set : list string) (good : json) : bool :=
  match good with
  | JDict d => in_set article_set (first_nonempty (id_fields d))
  | _ => false
  end.

(** [l if l else None] *)
Definition some_if_nonempty {A} (l : list A) : option (list A) :=
  match l with
  | [] => None
  | _ => Some l
  end.

(** A server that answers every POST with [post_status] and no JSON body,
    and every other request with 200 and the body [listing]. *)
Definition listing_server (post_status : Z) (listing : json) : server :=
  fun _ req =>
    if String.eqb (method req) "POST"
    then answer 50 post_status None None
    else answer 50 200 (Some listing) None.

(** Two listing rows: the first has a vendor code and a marketplace id, the
    second only a vendor code. *)
Definition good_sku1 : json :=
  JDict [("vendorCode", JStr "SKU-1"); ("nmID", JInt 115224606); ("price", JInt 1000)].

Definition good_sku2 : json :=
  JDict [("vendorCode", JStr "SKU-2"); ("price", JInt 700)].

(** The times at which the requests of a trace were sent. *)
Fixpoint sent_times (tr : list event) : list Z :=
  match tr with
  | [] => []
  | Sent t _ :: tr' => t :: sent_times tr'
  | Slept _ _ :: tr' => sent_times tr'
  end.

(** The requests of a trace, in the order sent. *)
Fixpoint requests_of (tr : list event) : list request :=
  match tr with
  | [] => []
  | Sent _ req :: tr' => req :: requests_of tr'
  | Slept _ _ :: tr' => requests_of tr'
  end.

Definition is_post (req : request) : bool := String.eqb (method req) "POST".

(** How many POST requests a trace holds. *)
Definition posts (tr : list event) : nat := List.length (filter is_post (requests_of tr)).

(** A server that follows a script: request number [n] of the run gets
    reply number [n], and [default] once the script is over. *)
Definition scripted (script : list reply) (default : reply) : server :=
  fun w _ => nth (List.length (requests_of (trace w))) script default.

(** [n] distinct numeric identifiers: 100000, 100001, ... *)
Definition numeric_ids (n : nat) : list string :=
  map (fun k => str_of_int (100000 + Z.of_nat k)) (seq 0 n).

(** A server that answers the first request of the run with 429 and
    [Retry-After: 2], and every later request with 200 and a listing that
    holds one row. *)
Definition throttle_once : server :=
  scripted [answer 50 429 None (Some 2%Z)]
           (answer 50 200 (Some (envelope_listGoods [good_sku2])) None).

(** The POST request of a batch of numeric identifiers. *)
Definition post_of_batch (batch : list string) : request :=
  post_nmList (map int_of_digits batch).

(** A server whose first answer is 200 with one row and whose second
    answer is 400; later requests get 200 and a listing. *)
Definition data_then_400 : server :=
  scripted [answer 50 200 (Some (envelope_listGoods [good_sku1])) None;
            answer 50 400 None None]
           (answer 50 200 (Some (envelope_listGoods [good_sku2])) None).

(** A server whose first answer is 400; later requests get 200 and a
    listing. *)
Definition first_400 : server :=
  scripted [answer 50 400 None None]
           (answer 50 200 (Some (envelope_listGoods [good_sku2])) None).

(** The identifiers Strategy A works on: the normalised identifiers that are
    numeric. *)
Definition numeric_of (articles : list string) : list string :=
  filter isdigit (map _extract_article_from_url articles).

(** A server that never yields data: every request fails or is answered
    with a status other than 200, and a [Retry-After] it sends is an
    integer that is not negative. *)
Definition quiet (srv : server) : Prop :=
  forall w req,
    match result (srv w req) with
    | Failed => True
    | Responded r =>
        status_code r <> 200%Z /\
        exists n, retry_seconds (retry_after r) = Ok n /\ (0 <= n)%Z
    end.

(** Some field of the row, as a string, is the identifier. *)
Definition row_mentions (identifier : string) (r : row) : bool :=
  existsb (fun kv => String.eqb (Py.str (snd kv)) identifier) r.

(** [s] begins with a match of [/catalog/(\d+)/detail\.aspx] whose group
    is [g]. *)
Definition catalog_match (s g : string) : Prop :=
  exists rest, s = ("/catalog/" ++ g ++ "/detail.aspx" ++ rest)%string /\ isdigit g = true.

(** [s] begins with a match of [/(\d{6,})/] whose group is [g]: a path
    segment made of at least six digits and nothing else. *)
Definition segment_match (s g : string) : Prop :=
  exists rest,
    s = ("/" ++ g ++ "/" ++ rest)%string /\ isdigit g = true /\ (6 <= String.length g)%nat.

(** The leftmost position of [article] that begins with a match has a match
    whose group is [g]. *)
Definition leftmost (P : string -> string -> Prop) (article g : string) : Prop :=
  exists pre s,
    article = (pre ++ s)%string /\ P s g /\
    forall pre' s' g',
      article = (pre' ++ s')%string ->
      (String.length pre' < String.length pre)%nat -> ~ P s' g'.

(** No position of [article] begins with a match. *)
Definition no_match (P : string -> string -> Prop) (article : string) : Prop :=
  forall pre s g, article = (pre ++ s)%string -> ~ P s g.

(** The first run of at least six consecutive digits of a string, wherever
    it stands. *)
Fixpoint first_digit_run (s : string) : option string :=
  match s with
  | EmptyString => None
  | String _ s' =>
      let (d, _) := span_digits s in
      if (6 <=? String.length d)%nat then Some d else first_digit_run s'
  end.

(** The events a run added to the trace: those of [w'] past those of [w]. *)
Definition new_events (w w' : world) : list event :=
  skipn (List.length (trace w)) (trace w').

(** What the server makes of one batch: a page of goods (200 and
    [{data: {listGoods: goods}}]), a refusal (a status without JSON, with or
    without [Retry-After]), or no answer at all. *)
Inductive batch_answer : Type :=
| Page (goods : list json)
| Refused (status : Z) (retry : option Z)
| Dropped.

Definition reply_of (ms : N) (a : batch_answer) : reply :=
  match a with
  | Page goods => answer ms 200 (Some (envelope_listGoods goods)) None
  | Refused status retry => answer ms status None retry
  | Dropped => {| latency := ms; result := Failed |}
  end.

(** The goods a batch answer carries. *)
Definition goods_of (a : batch_answer) : list json :=
  match a with
  | Page goods => goods
  | _ => []
  end.

(** The goods of a page are objects; a refusal has a status other than 200
    and no negative [Retry-After]. *)
Definition acceptable (a : batch_answer) : bool :=
  match a with
  | Page goods => forallb is_object goods
  | Refused status retry =>
      negb (status =? 200)%Z &&
      match retry with Some n => (0 <=? n)%Z | None => true end
  | Dropped => true
  end.

(** Every POST is answered 200 with a JSON body. *)
Definition healthy (srv : server) : Prop :=
  forall w req,
    is_post req = true ->
    exists r, result (srv w req) = Responded r /\ status_code r = 200%Z /\ body r <> None.

(** The times are in order from [t0] on, each at least 600 ms after the one
    before, and the last at least 600 ms before [t1]. *)
Fixpoint paced (t0 : Z) (times : list Z) (t1 : Z) : Prop :=
  match times with
  | [] => (t0 <= t1)%Z
  | t :: rest => (t0 <= t)%Z /\ paced (t + 600) rest t1
  end.

(** Any two of the times are at least 600 ms apart for each position that
    separates them. *)
Definition spaced (times : list Z) : Prop :=
  forall i j ti tj,
    (i <= j)%nat ->
    nth_error times i = Some ti ->
    nth_error times j = Some tj ->
    (600 * Z.of_nat (j - i) <= tj - ti)%Z.

(** The events are requests, each followed by one sleep at most: no sleep
    comes first or after another sleep. *)
Inductive request_led : list event -> Prop :=
| led_nil : request_led []
| led_sent : forall t req evs, request_led evs -> request_led (Sent t req :: evs)
| led_sent_slept :
    forall t req t' d evs,
      request_led evs -> request_led (Sent t req :: Slept t' d :: evs).

(** Since [start_time] was set, 600 ms have passed for every counted
    request. *)
Definition window_invariant (st : loop_state) (w : world) : Prop :=
  (600 * request_count st <= now w - start_time st)%Z.

(** The keys of a price row and of an error row, in the order written. *)
Definition price_columns : list string :=
  ["cabinet"; "cabinet_id"; "nm_id"; "vendor_code"; "size_id"; "size_name";
   "base_price"; "discounted_price"; "club_discounted_price"; "discount_percent";
   "club_discount_percent"; "currency"; "editable_size_price"].

Definition error_columns : list string :=
  ["cabinet"; "cabinet_id"; "vendor_code"; "base_price"; "discount_price";
   "price_with_card"; "error"].

(** The row is a price row or an error row of the cabinet. *)
Definition row_of_cabinet (cabinet_name cabinet_id : string) (r : row) : Prop :=
  Py.lookup "cabinet" r = Some (JStr cabinet_name) /\
  Py.lookup "cabinet_id" r = Some (JStr cabinet_id) /\
  (map fst r = price_columns \/ map fst r = error_columns).

(** The value of [price_item.get("sizes", [])]. *)
Definition sizes_of (item : list (string * json)) : json :=
  Py.dict_get item "sizes" (JList []).

(** The body [{data: {cards: cards}}] of the content listing. *)
Definition envelope_cards (cards : list json) : json :=
  JDict [("data", JDict [("cards", JList cards)])].

(** The request [get_content] sends. *)
Definition content_request (limit offset : Z) : request :=
  base_request "POST" content_endpoint None
    (Some (JDict [("limit", JInt (Z.min limit 1000)); ("offset", JInt offset)])) 30.

(** The answer 200 that carries a page of cards. *)
Definition page_reply (ms : N) (cards : list json) : reply :=
  answer ms 200 (Some (envelope_cards cards)) None.

(** The page has a thousand cards or more. *)
Definition full_page (cards : list json) : bool := (1000 <=? Z.of_nat (List.length cards))%Z.

(** Every request is answered with a full page. *)
Definition full_pages_forever (srv : server) : Prop :=
  forall w req, exists ms cards, srv w req = page_reply ms cards /\ full_page cards = true.

Definition card (n : Z) : json := JDict [("nmID", JInt n)].

(** A page of a thousand cards. *)
Definition thousand_cards : list json := repeat (card 1) 1000.

(** The cabinet has a key and an id: the loop of [main] does not skip it. *)
Definition eligible (wb_cabinet_ids : list (string * option string))
    (c : string * option string) : bool :=
  negb (missing (snd c)) && negb (missing (setting (fst c) wb_cabinet_ids)).

(** The id the loop of [main] gives the parser of a cabinet. *)
Definition id_of (wb_cabinet_ids : list (string * option string)) (cabinet_name : string)
    : string :=
  value (setting cabinet_name wb_cabinet_ids).

(** The last character of [String c s]. *)
Fixpoint last_char (c : ascii) (s : string) : ascii :=
  match s with
  | EmptyString => c
  | String c' s' => last_char c' s'
  end.

(** The string neither begins nor ends with a blank. *)
Definition trimmed (s : string) : bool :=
  match s with
  | EmptyString => true
  | String c s' => negb (is_space c) && negb (is_space (last_char c s'))
  end.

(** The header makes the 429 branch raise: [int] rejects it, or
    [time.sleep] rejects the negative number of seconds. *)
Definition bad_retry (h : option retry_header) : bool :=
  match h with
  | Some Unparsable => true
  | Some (Seconds n) => (n <? 0)%Z
  | None => false
  end.

(** A server that answers every request with 429 and a [Retry-After] that
    holds an HTTP date. *)
Definition throttle_with_date : server :=
  fun _ _ =>
    {| latency := 50;
       result := Responded {| status_code := 429; body := None;
                              retry_after := Some Unparsable |} |}.

(* ===================================================================== *)
(** ** The transport client *)
(* ===================================================================== *)

(** C10: whatever the key, with or without the prefix [Bearer ], the prefix
    test yields the key itself and the [Authorization] header of the session
    is the raw key. *)
Theorem authorization_is_raw_key :
  forall (key : string) (delay : Z),
    auth_header key = key /\
    header "Authorization" (headers (init key delay)) = Some key.
Proof.
  intros key delay.
  assert (Hk : auth_header key = key).
  { unfold auth_header. destruct (startswith key "Bearer "); reflexivity. }
  split; [exact Hk|].
  cbn. now rewrite Hk.
Qed.

Section TransportFacts.

Variable srv : server.

(** C8, as the code has it: with a delay that is not negative,
    [_make_request] never raises; when the call completes with a status
    outside 400..599 it sleeps [request_delay] once, after the request, and
    returns the decoded body ([None] if the body is not JSON); on a 4xx or
    5xx status and on a transport failure it returns [None] and does not
    sleep. *)
Theorem make_request_sleeps_after_success_only :
  forall (self : WildberriesAPI) (method_ endpoint : string)
         (params_ json_data_ : option json) (timeout_ : Z) (w : world),
    (0 <= request_delay self)%Z ->
    let req := base_request method_ endpoint params_ json_data_ timeout_ in
    let w1 := after_request srv w req in
    _make_request srv self method_ endpoint params_ json_data_ timeout_ w =
    match result (srv w req) with
    | Failed => (Ok JNull, w1)
    | Responded r =>
        if is_error_status (status_code r) then (Ok JNull, w1)
        else (Ok (match body r with Some v => v | None => JNull end),
              after_sleep w1 (request_delay self))
    end.
Proof.
  intros self method_ endpoint params_ json_data_ timeout_ w Hdelay req w1.
  unfold _make_request, bind, session_request.
  fold (base_request method_ endpoint params_ json_data_ timeout_). fold req.
  destruct (result (srv w req)) as [r|]; [|reflexivity].
  destruct (is_error_status (status_code r)); [reflexivity|].
  unfold time_sleep.
  replace (request_delay self <? 0)%Z with false by (symmetry; apply Z.ltb_ge; exact Hdelay).
  destruct (body r); reflexivity.
Qed.

End TransportFacts.

(** C8, witness: a server that answers 200 with a body; the delay is slept
    after the request. *)
Lemma make_request_sleeps_after_success_only_witness :
  _make_request (always 20 200 (Some (JInt 7)) None) (init "key" 500)
    "GET" "/ping" None None 30 initial_world
  = (Ok (JInt 7),
     {| now := 520;
        trace := [Sent 0 (base_request "GET" "/ping" None None 30); Slept 20 500] |}).
Proof.
  exact (make_request_sleeps_after_success_only (always 20 200 (Some (JInt 7)) None)
           (init "key" 500) "GET" "/ping" None None 30 initial_world
           ltac:(cbn; lia)).
Defined.

(** C8, counterexample: on a 503 answer [_make_request] returns [None] and
    the run holds no sleep at all. *)
Lemma make_request_no_sleep_on_http_error :
  let run := _make_request (always 20 503 None None) (init "key" 500)
               "GET" "/ping" None None 30 initial_world in
  fst run = Ok JNull /\
  existsb is_sleep (trace (snd run)) = false /\
  trace (snd run) = [Sent 0 (base_request "GET" "/ping" None None 30)].
Proof. repeat split. Qed.

(* ===================================================================== *)
(** ** The normaliser *)
(* ===================================================================== *)

Section NormalizerFacts.

Variables cabinet_name cabinet_id : string.

Lemma size_rows_pointwise :
  forall item vendor_code nm_id sizes,
    forallb is_object sizes = true ->
    exists rows,
      size_rows cabinet_name cabinet_id item vendor_code nm_id sizes = Ok rows /\
      Forall2 (fun size r => size_row cabinet_name cabinet_id item vendor_code nm_id size = Ok r)
              sizes rows.
Proof.
  intros item vendor_code nm_id sizes.
  induction sizes as [|size rest IH]; intros Hobj.
  - exists []. split; [reflexivity|constructor].
  - cbn in Hobj. apply andb_true_iff in Hobj as [Hsize Hrest].
    destruct (IH Hrest) as (rows & Hrows & Hall).
    destruct size as [| | | | |sz]; try discriminate Hsize.
    eexists. split.
    + cbn. rewrite Hrows. cbn. reflexivity.
    + constructor; [reflexivity|exact Hall].
Qed.




End NormalizerFacts.


(* ===================================================================== *)
(** ** Strategy B: the listing and its filter *)
(* ===================================================================== *)

Lemma good_article_leading :
  forall d, good_article (JDict d) = Ok (first_nonempty (id_fields d)).
Proof.
  intros d. unfold good_article, id_fields, first_nonempty, str_or.
  destruct (String.eqb (Py.str (Py.dict_get d "vendorCode" (JStr ""))) ""); [|reflexivity].
  destruct (String.eqb (Py.str (Py.dict_get d "nmID" (JStr ""))) ""); [|reflexivity].
  destruct (String.eqb (Py.str (Py.dict_get d "nmId" (JStr ""))) "") eqn:E; [|reflexivity].
  apply String.eqb_eq in E. now rewrite E.
Qed.

Lemma filter_goods_objects :
  forall article_set goods,
    forallb is_object goods = true ->
    filter_goods article_set goods = Ok (filter (leading_id_requested article_set) goods).
Proof.
  intros article_set goods. induction goods as [|good rest IH]; intros Hobj.
  - reflexivity.
  - cbn in Hobj. apply andb_true_iff in Hobj as [Hgood Hrest].
    destruct good as [| | | | |d]; try discriminate Hgood.
    cbn [filter_goods]. rewrite good_article_leading, (IH Hrest).
    cbn [res_bind filter leading_id_requested]. reflexivity.
Qed.

(** C7, as the code has it: when the listing request is answered 200 with
    [{data: {listGoods: goods}}], Strategy B returns, in order, exactly the
    rows of [goods] whose first non-empty identifier field (vendor code,
    then [nmID], then [nmId], each as a string) is a requested identifier,
    and [None] when there is no such row. *)
Theorem strategy_B_filters_on_leading_identifier :
  forall (srv : server) (cleaned_articles : list string) (w : world)
         (r : response) (goods : list json),
    result (srv w get_listing) = Responded r ->
    status_code r = 200%Z ->
    body r = Some (envelope_listGoods goods) ->
    forallb is_object goods = true ->
    strategy_B srv cleaned_articles w =
    (Ok (some_if_nonempty (filter (leading_id_requested cleaned_articles) goods)),
     after_request srv w get_listing).
Proof.
  intros srv cleaned_articles w r goods Hres Hstatus Hbody Hobj.
  unfold strategy_B, bind, session_request. rewrite Hres, Hstatus, Hbody.
  cbn [Z.eqb Pos.eqb lift]. unfold lift, envelope_listGoods, absorb_B.
  cbn -[filter_goods]. rewrite (filter_goods_objects _ _ Hobj).
  unfold ret, after_request, some_if_nonempty.
  destruct (filter (leading_id_requested cleaned_articles) goods); reflexivity.
Qed.

(** C7, witness: a listing of two rows, one of them requested by its vendor
    code. *)
Lemma strategy_B_filters_on_leading_identifier_witness :
  strategy_B (listing_server 400 (envelope_listGoods [good_sku1; good_sku2]))
    ["SKU-2"] initial_world
  = (Ok (Some [good_sku2]), {| now := 50; trace := [Sent 0 get_listing] |}).
Proof.
  exact (strategy_B_filters_on_leading_identifier
           (listing_server 400 (envelope_listGoods [good_sku1; good_sku2]))
           ["SKU-2"] initial_world
           {| status_code := 200;
              body := Some (envelope_listGoods [good_sku1; good_sku2]);
              retry_after := None |}
           [good_sku1; good_sku2] eq_refl eq_refl eq_refl eq_refl).
Defined.

(** C7, counterexample: the marketplace id of a listed row is requested,
    the row also has a vendor code, and the row is not returned. *)
Lemma strategy_B_drops_row_matching_by_nmID :
  some_id_requested ["115224606"] good_sku1 = true /\
  fst (get_prices_by_articles
         (listing_server 400 (envelope_listGoods [good_sku1; good_sku2]))
         ["115224606"] initial_world) = Ok None.
Proof. split; reflexivity. Qed.

Lemma existsb_is_str_objects :
  forall k goods, forallb is_object goods = true -> existsb (Py.is_str k) goods = false.
Proof.
  intros k goods. induction goods as [|g rest IH]; intros H; [reflexivity|].
  cbn in H. apply andb_true_iff in H as [Hg Hrest].
  destruct g; try discriminate Hg. cbn. exact (IH Hrest).
Qed.

(** Strategy A takes the goods of a 200 body alike from the three
    envelopes. *)
Lemma absorb_A_envelopes_agree :
  forall goods acc,
    forallb is_object goods = true ->
    absorb_A (envelope_listGoods goods) acc = Ok (acc ++ goods) /\
    absorb_A (envelope_data goods) acc = Ok (acc ++ goods) /\
    absorb_A (envelope_bare goods) acc = Ok (acc ++ goods).
Proof.
  intros goods acc Hobj. repeat split; try reflexivity.
  unfold absorb_A, envelope_bare. destruct goods as [|g rest].
  - cbn. now rewrite app_nil_r.
  - cbn [Py.truthy Py.contains res_bind].
    now rewrite (existsb_is_str_objects _ _ Hobj).
Qed.

(** C6, on the code: the same two listing rows, of which one is requested,
    reach Strategy B in the three envelopes.  From [{data: {listGoods: ...}}]
    the requested row is returned; from [{data: [...]}] both rows are
    returned, unfiltered; from a bare list nothing is returned. *)
Theorem strategy_B_result_depends_on_envelope :
  let goods := [good_sku1; good_sku2] in
  let fetch listing :=
    fst (get_prices_by_articles (listing_server 400 listing) ["SKU-1"] initial_world) in
  fetch (envelope_listGoods goods) = Ok (Some [good_sku1]) /\
  fetch (envelope_data goods) = Ok (Some [good_sku1; good_sku2]) /\
  fetch (envelope_bare goods) = Ok None.
Proof. repeat split. Qed.

(* ===================================================================== *)
(** ** Strategy A: batches, pacing and statuses *)
(* ===================================================================== *)

Lemma requests_of_app :
  forall tr tr', requests_of (tr ++ tr') = requests_of tr ++ requests_of tr'.
Proof.
  intros tr tr'. induction tr as [|e tr IH]; [reflexivity|].
  destruct e; cbn; now rewrite IH.
Qed.

Section StrategyAFacts.

Variable srv : server.

(** The window check never raises and leaves the results and the requests
    of the trace as they are; below ten counted requests it does nothing. *)
Lemma window_check_ok :
  forall st w,
    exists st1 w1,
      window_check st w = (Ok st1, w1) /\
      all_results st1 = all_results st /\
      requests_of (trace w1) = requests_of (trace w) /\
      ((request_count st < 10)%Z -> st1 = st /\ w1 = w).
Proof.
  intros st w. unfold window_check.
  destruct (10 <=? request_count st)%Z eqn:Hcount.
  - unfold bind, time_time.
    destruct (now w - start_time st <? 6000)%Z eqn:Hel.
    + unfold time_sleep.
      apply Z.ltb_lt in Hel.
      replace (6000 - (now w - start_time st) <? 0)%Z with false
        by (symmetry; apply Z.ltb_ge; lia).
      eexists. eexists. split; [reflexivity|]. split; [reflexivity|]. split.
      * cbn [trace]. rewrite requests_of_app. cbn [requests_of]. apply app_nil_r.
      * intros Hlt. apply Z.leb_le in Hcount. lia.
    + eexists. eexists. split; [reflexivity|]. split; [reflexivity|]. split.
      * reflexivity.
      * intros Hlt. apply Z.leb_le in Hcount. lia.
  - exists st, w. repeat split.
Qed.

Lemma requests_of_after_request :
  forall w req,
    requests_of (trace (after_request srv w req)) = requests_of (trace w) ++ [req].
Proof. intros w req. cbn. now rewrite requests_of_app. Qed.

Lemma requests_of_after_sleep :
  forall w d, requests_of (trace (after_sleep w d)) = requests_of (trace w).
Proof. intros w d. cbn. now rewrite requests_of_app, app_nil_r. Qed.

Lemma time_sleep_run :
  forall d w,
    time_sleep d w = if (d <? 0)%Z then (Raise ValueError, w) else (Ok tt, after_sleep w d).
Proof. reflexivity. Qed.

Lemma session_request_run :
  forall req w,
    session_request srv req w = (Ok (result (srv w req)), after_request srv w req).
Proof. reflexivity. Qed.

(** One iteration sends the POST of its batch once and nothing else, and
    only adds to the results. *)
Lemma post_batch_sends_once :
  forall batch st w st' w',
    post_batch srv batch st w = (Ok st', w') ->
    requests_of (trace w') = requests_of (trace w) ++ [post_of_batch batch] /\
    exists more, all_results st' = all_results st ++ more.
Proof.
  intros batch st w st' w' Hrun.
  destruct (window_check_ok st w) as (st1 & w1 & Hwin & Hres & Hreq & _).
  unfold post_batch, bind in Hrun. rewrite Hwin in Hrun.
  rewrite session_request_run in Hrun. fold (post_of_batch batch) in Hrun.
  pose proof (requests_of_after_request w1 (post_of_batch batch)) as Hsent.
  rewrite Hreq in Hsent.
  assert (Hsame : exists more, all_results st1 = all_results st ++ more)
    by (exists []; now rewrite app_nil_r).
  destruct (result (srv w1 (post_of_batch batch))) as [r|].
  2:{ injection Hrun as <- <-. split; assumption. }
  destruct (status_code r =? 200)%Z.
  - destruct (body r) as [result_|].
    2:{ injection Hrun as <- <-. split; assumption. }
    unfold lift in Hrun.
    destruct (absorb_A result_ (all_results st1)) as [acc|e] eqn:Habs; [|discriminate Hrun].
    rewrite time_sleep_run in Hrun. cbn in Hrun. injection Hrun as <- <-.
    split.
    + change (requests_of (trace (after_sleep (after_request srv w1 (post_of_batch batch)) 600))
              = requests_of (trace w) ++ [post_of_batch batch]).
      now rewrite requests_of_after_sleep.
    + cbn. rewrite Hres in Habs. clear - Habs.
      unfold absorb_A in Habs.
      repeat match type of Habs with
             | Ok _ = Ok _ => injection Habs as <-
             | Raise _ = Ok _ => discriminate Habs
             | context [res_bind ?x _] => destruct x; cbn [res_bind] in Habs
             | context [match ?x with _ => _ end] => destruct x
             end;
        solve [eexists; reflexivity | exists []; now rewrite app_nil_r].
  - destruct (status_code r =? 400)%Z.
    { injection Hrun as <- <-. split; assumption. }
    destruct (status_code r =? 429)%Z.
    2:{ injection Hrun as <- <-. split; assumption. }
    unfold lift in Hrun.
    destruct (retry_seconds (retry_after r)) as [retry|e]; [|discriminate Hrun].
    rewrite time_sleep_run in Hrun.
    destruct (1000 * retry <? 0)%Z; [discriminate Hrun|].
    injection Hrun as <- <-. split; [|assumption].
    change (requests_of (trace (after_sleep (after_request srv w1 (post_of_batch batch))
                                  (1000 * retry)))
            = requests_of (trace w) ++ [post_of_batch batch]).
    now rewrite requests_of_after_sleep.
Qed.

(** The loop submits every batch exactly once, in order, whatever the
    answers, and the results only grow. *)
Lemma strategy_A_sends_each_batch_once :
  forall bs st w st' w',
    strategy_A srv bs st w = (Ok st', w') ->
    requests_of (trace w') = requests_of (trace w) ++ map post_of_batch bs /\
    exists more, all_results st' = all_results st ++ more.
Proof.
  induction bs as [|batch rest IH]; intros st w st' w' Hrun.
  - injection Hrun as <- <-. rewrite app_nil_r. split; [reflexivity|].
    exists []. now rewrite app_nil_r.
  - cbn [strategy_A] in Hrun. unfold bind in Hrun.
    destruct (post_batch srv batch st w) as [[st1|e] w1] eqn:Hstep; [|discriminate Hrun].
    destruct (post_batch_sends_once _ _ _ _ _ Hstep) as (Hreq1 & more1 & Hres1).
    destruct (IH _ _ _ _ Hrun) as (Hreq2 & more2 & Hres2).
    split.
    + rewrite Hreq2, Hreq1. cbn [map]. now rewrite <- app_assoc.
    + exists (more1 ++ more2). rewrite Hres2, Hres1. now rewrite app_assoc.
Qed.

End StrategyAFacts.

(** C3, on the code: one numeric identifier, a first answer 429 with
    [Retry-After: 2].  The fetcher sleeps two seconds and then sends the
    listing request of Strategy B: the batch is posted once and never
    again, and the run ends without data. *)
Theorem batch_not_retried_after_429 :
  let run := get_prices_by_articles throttle_once ["115224606"] initial_world in
  fst run = Ok None /\
  trace (snd run)
    = [Sent 0 (post_of_batch ["115224606"]); Slept 50 2000; Sent 2050 get_listing] /\
  posts (trace (snd run)) = 1%nat.
Proof. repeat split. Qed.

(** C2, on the code: 1001 numeric identifiers, every request answered 500
    after 50 ms.  The eleven batches and the listing request leave within
    550 ms of each other, 50 ms apart, and the fetcher never sleeps. *)
Theorem requests_unpaced_on_error_status :
  let run := get_prices_by_articles (always 50 500 None None) (numeric_ids 1001)
               initial_world in
  sent_times (trace (snd run))
    = [0; 50; 100; 150; 200; 250; 300; 350; 400; 450; 500; 550]%Z /\
  posts (trace (snd run)) = 11%nat /\
  existsb is_sleep (trace (snd run)) = false.
Proof. vm_compute. repeat split. Qed.

Lemma batches_single :
  forall (A : Type) (l : list A),
    l <> [] -> (List.length l <= batch_size)%nat -> batches l = [l].
Proof.
  intros A l Hne Hlen. unfold batches, range_step, batch_size in *.
  assert (Hpos : (1 <= List.length l)%nat).
  { destruct l; [contradiction|cbn; lia]. }
  replace ((List.length l + 100 - 1) / 100)%nat with 1%nat.
  2:{ apply Nat.div_unique with (r := (List.length l - 1)%nat); lia. }
  cbn [seq map]. unfold slice. cbn [Nat.mul skipn].
  replace (0 + 100 - 0)%nat with 100%nat by lia.
  now rewrite firstn_all2.
Qed.

Section FallbackFacts.

Variable srv : server.

(** X17: the passage from Strategy A to Strategy B.  A 400 answer to a
    batch leaves the accumulated results as they are; the Strategy A loop
    never discards results; once the loop is over, accumulated results are
    returned without any listing request, and when nothing was accumulated
    the listing request of Strategy B is sent before the function returns -
    in particular when the only batch of Strategy A is answered 400. *)
Theorem fallback_to_strategy_B_after_400 :
  (forall batch st w st1 w1 r,
      window_check st w = (Ok st1, w1) ->
      result (srv w1 (post_of_batch batch)) = Responded r ->
      status_code r = 400%Z ->
      post_batch srv batch st w = (Ok st1, after_request srv w1 (post_of_batch batch)) /\
      all_results st1 = all_results st) /\
  (forall bs st w st' w',
      strategy_A srv bs st w = (Ok st', w') ->
      exists more, all_results st' = all_results st ++ more) /\
  (forall articles w st w1,
      strategy_A_phase srv (map _extract_article_from_url articles) w = (Ok st, w1) ->
      (all_results st <> [] ->
       get_prices_by_articles srv articles w = (Ok (Some (all_results st)), w1)) /\
      (all_results st = [] ->
       get_prices_by_articles srv articles w
         = strategy_B srv (map _extract_article_from_url articles) w1 /\
       requests_of (trace (snd (get_prices_by_articles srv articles w)))
         = requests_of (trace w1) ++ [get_listing])) /\
  (forall articles w r,
      numeric_of articles <> [] ->
      (List.length (numeric_of articles) <= batch_size)%nat ->
      result (srv w (post_of_batch (numeric_of articles))) = Responded r ->
      status_code r = 400%Z ->
      requests_of (trace (snd (get_prices_by_articles srv articles w)))
        = requests_of (trace w) ++ [post_of_batch (numeric_of articles); get_listing]).
Proof.
  assert (Hstep : forall batch st w st1 w1 r,
             window_check st w = (Ok st1, w1) ->
             result (srv w1 (post_of_batch batch)) = Responded r ->
             status_code r = 400%Z ->
             post_batch srv batch st w
               = (Ok st1, after_request srv w1 (post_of_batch batch)) /\
             all_results st1 = all_results st).
  { intros batch st w st1 w1 r Hwin Hres Hstatus. split.
    - unfold post_batch, bind. rewrite Hwin, session_request_run.
      fold (post_of_batch batch). rewrite Hres, Hstatus. reflexivity.
    - destruct (window_check_ok st w) as (st1' & w1' & Hwin' & Hsame & _).
      rewrite Hwin in Hwin'. injection Hwin' as <- <-. exact Hsame. }
  assert (Hlisting : forall cleaned w1,
             requests_of (trace (snd (strategy_B srv cleaned w1)))
               = requests_of (trace w1) ++ [get_listing]).
  { intros cleaned w1. unfold strategy_B, bind. rewrite session_request_run.
    pose proof (requests_of_after_request srv w1 get_listing) as Hsent.
    destruct (result (srv w1 get_listing)) as [r|]; [|exact Hsent].
    destruct (status_code r =? 200)%Z; [|exact Hsent].
    destruct (body r) as [result_|]; [|exact Hsent].
    unfold lift. destruct (absorb_B cleaned result_); exact Hsent. }
  assert (Hgate : forall articles w st w1,
             strategy_A_phase srv (map _extract_article_from_url articles) w = (Ok st, w1) ->
             (all_results st <> [] ->
              get_prices_by_articles srv articles w = (Ok (Some (all_results st)), w1)) /\
             (all_results st = [] ->
              get_prices_by_articles srv articles w
                = strategy_B srv (map _extract_article_from_url articles) w1 /\
              requests_of (trace (snd (get_prices_by_articles srv articles w)))
                = requests_of (trace w1) ++ [get_listing])).
  { intros articles w st w1 Hphase.
    assert (Hrun : get_prices_by_articles srv articles w
                   = match all_results st with
                     | [] => strategy_B srv (map _extract_article_from_url articles) w1
                     | found => (Ok (Some found), w1)
                     end).
    { unfold get_prices_by_articles, bind. rewrite Hphase.
      destruct (all_results st); reflexivity. }
    split.
    - intros Hne. rewrite Hrun. destruct (all_results st); [contradiction|reflexivity].
    - intros Hnil. rewrite Hrun, Hnil. split; [reflexivity|apply Hlisting]. }
  split; [exact Hstep|]. split.
  { intros bs st w st' w' Hrun.
    exact (proj2 (strategy_A_sends_each_batch_once srv _ _ _ _ _ Hrun)). }
  split; [exact Hgate|].
  intros articles w r Hne Hlen Hres Hstatus.
  set (st0 := {| all_results := []; request_count := 0; start_time := now w |}).
  assert (Hwin : window_check st0 w = (Ok st0, w)) by reflexivity.
  destruct (Hstep (numeric_of articles) st0 w st0 w r Hwin Hres Hstatus) as [Hpost _].
  assert (Hphase : strategy_A_phase srv (map _extract_article_from_url articles) w
                   = (Ok st0, after_request srv w (post_of_batch (numeric_of articles)))).
  { unfold strategy_A_phase, bind, time_time. fold (numeric_of articles). fold st0.
    destruct (numeric_of articles) as [|a rest] eqn:Hnum; [contradiction|].
    rewrite <- Hnum in *. rewrite (batches_single _ _ Hne Hlen).
    cbn [strategy_A]. unfold bind. rewrite Hpost. reflexivity. }
  destruct (Hgate articles w _ _ Hphase) as [_ Hempty].
  destruct (Hempty eq_refl) as [_ Hreq].
  rewrite Hreq, requests_of_after_request, <- app_assoc. reflexivity.
Qed.

End FallbackFacts.

(** X17, witness: the only batch is answered 400; the listing request
    follows it. *)
Lemma fallback_to_strategy_B_after_400_witness :
  requests_of (trace (snd (get_prices_by_articles first_400 ["115224606"] initial_world)))
  = [post_of_batch ["115224606"]; get_listing].
Proof.
  exact (proj2 (proj2 (proj2 (fallback_to_strategy_B_after_400 first_400)))
           ["115224606"] initial_world
           {| status_code := 400; body := None; retry_after := None |}
           ltac:(discriminate) ltac:(apply Nat.leb_le; reflexivity) eq_refl eq_refl).
Defined.

(** An example of the passage: 101 numeric identifiers; the first batch is
    answered 200 with a row, the second 400.  The function returns the row
    and has sent two POST requests and no listing request. *)
Lemma no_strategy_B_after_400_with_earlier_data :
  let run := get_prices_by_articles data_then_400 (numeric_ids 101) initial_world in
  fst run = Ok (Some [good_sku1]) /\
  map method (requests_of (trace (snd run))) = ["POST"; "POST"] /\
  existsb (fun req => String.eqb (method req) "GET") (requests_of (trace (snd run))) = false.
Proof. vm_compute. repeat split. Qed.

(** C4, on the code: 101 numeric identifiers, the first batch answered 400
    and the second 200 with a row.  After the 400 the loop goes on and posts
    the second batch; as that batch brings a row, the function returns it
    without the listing request.  Strategy A is not abandoned on the 400,
    and the 400 that came before any success is not followed by
    Strategy B. *)
Theorem strategy_A_goes_on_after_400 :
  let run := get_prices_by_articles first_400 (numeric_ids 101) initial_world in
  fst run = Ok (Some [good_sku2]) /\
  requests_of (trace (snd run))
    = [post_of_batch (firstn 100 (numeric_ids 101));
       post_of_batch (skipn 100 (numeric_ids 101))] /\
  existsb (fun req => String.eqb (method req) "GET") (requests_of (trace (snd run))) = false.
Proof. vm_compute. repeat split. Qed.

(* ===================================================================== *)
(** ** The orchestrator *)
(* ===================================================================== *)

Lemma skipn_add :
  forall (A : Type) (n m : nat) (l : list A), skipn (n + m) l = skipn m (skipn n l).
Proof.
  intros A n. induction n as [|n IH]; intros m l; [reflexivity|].
  destruct l as [|a l]; cbn.
  - now destruct m.
  - apply IH.
Qed.

Lemma concat_chunks :
  forall (A : Type) (size n : nat) (l : list A),
    (List.length l <= n * size)%nat ->
    List.concat (map (fun k => firstn size (skipn (k * size) l)) (seq 0 n)) = l.
Proof.
  intros A size n. induction n as [|n IH]; intros l Hlen.
  - cbn in *. destruct l; [reflexivity|cbn in Hlen; lia].
  - rewrite <- cons_seq, <- seq_shift. cbn [map List.concat]. rewrite map_map.
    change (skipn (0 * size) l) with l.
    transitivity (firstn size l ++ skipn size l); [|apply firstn_skipn].
    f_equal.
    rewrite (map_ext _ (fun k => firstn size (skipn (k * size) (skipn size l)))).
    + apply IH. rewrite length_skipn. lia.
    + intros k. cbn [Nat.mul]. now rewrite skipn_add.
Qed.

(** The batches, put end to end, are the list they were cut from. *)
Lemma concat_batches :
  forall (A : Type) (l : list A), List.concat (batches l) = l.
Proof.
  intros A l. unfold batches, range_step, slice, batch_size.
  rewrite map_map.
  rewrite (map_ext _ (fun k => firstn 100 (skipn (k * 100) l))).
  - apply concat_chunks.
    pose proof (Nat.div_mod_eq (List.length l + 100 - 1) 100) as Hdiv.
    pose proof (Nat.mod_upper_bound (List.length l + 100 - 1) 100 ltac:(lia)) as Hmod.
    lia.
  - intros k. f_equal. lia.
Qed.

Section OrchestratorFacts.

Variable srv : server.
Variables cabinet_name cabinet_id : string.

Lemma quiet_post_batch :
  quiet srv ->
  forall batch st w,
    exists st1 w1,
      post_batch srv batch st w = (Ok st1, w1) /\ all_results st1 = all_results st.
Proof.
  intros Hquiet batch st w.
  destruct (window_check_ok st w) as (st1 & w1 & Hwin & Hres & _).
  unfold post_batch, bind. rewrite Hwin, session_request_run.
  fold (post_of_batch batch).
  specialize (Hquiet w1 (post_of_batch batch)).
  destruct (result (srv w1 (post_of_batch batch))) as [r|].
  2:{ eexists. eexists. split; [reflexivity|exact Hres]. }
  destruct Hquiet as (Hstatus & n & Hretry & Hn).
  apply Z.eqb_neq in Hstatus. rewrite Hstatus.
  destruct (status_code r =? 400)%Z.
  { eexists. eexists. split; [reflexivity|exact Hres]. }
  destruct (status_code r =? 429)%Z.
  2:{ eexists. eexists. split; [reflexivity|exact Hres]. }
  unfold lift. rewrite Hretry, time_sleep_run.
  replace (1000 * n <? 0)%Z with false by (symmetry; apply Z.ltb_ge; lia).
  eexists. eexists. split; [reflexivity|exact Hres].
Qed.

Lemma quiet_strategy_A :
  quiet srv ->
  forall bs st w,
    exists st1 w1,
      strategy_A srv bs st w = (Ok st1, w1) /\ all_results st1 = all_results st.
Proof.
  intros Hquiet bs. induction bs as [|batch rest IH]; intros st w.
  - exists st, w. split; reflexivity.
  - destruct (quiet_post_batch Hquiet batch st w) as (st1 & w1 & Hstep & Hres1).
    destruct (IH st1 w1) as (st2 & w2 & Hrest & Hres2).
    exists st2, w2. split.
    + cbn [strategy_A]. unfold bind. rewrite Hstep. exact Hrest.
    + now rewrite Hres2.
Qed.

(** On a quiet server the fetcher returns [None] and does not raise. *)
Lemma quiet_fetch :
  quiet srv ->
  forall articles w, exists w', get_prices_by_articles srv articles w = (Ok None, w').
Proof.
  intros Hquiet articles w.
  unfold get_prices_by_articles, bind.
  assert (Hphase : exists st w1,
             strategy_A_phase srv (map _extract_article_from_url articles) w = (Ok st, w1) /\
             all_results st = []).
  { unfold strategy_A_phase, bind, time_time.
    destruct (filter isdigit (map _extract_article_from_url articles)) as [|a l].
    - eexists. eexists. split; reflexivity.
    - apply (quiet_strategy_A Hquiet). }
  destruct Hphase as (st & w1 & Hphase & Hnil). rewrite Hphase, Hnil.
  unfold strategy_B, bind. rewrite session_request_run.
  specialize (Hquiet w1 get_listing).
  destruct (result (srv w1 get_listing)) as [r|]; [|eexists; reflexivity].
  destruct Hquiet as [Hstatus _]. apply Z.eqb_neq in Hstatus. rewrite Hstatus.
  eexists; reflexivity.
Qed.

Lemma quiet_parse_batches :
  quiet srv ->
  forall bs acc w,
    exists w',
      parse_batches srv cabinet_name cabinet_id bs acc w
      = (Ok (acc ++ map (error_row cabinet_name cabinet_id) (List.concat bs)), w').
Proof.
  intros Hquiet bs. induction bs as [|batch rest IH]; intros acc w.
  - exists w. cbn. now rewrite app_nil_r.
  - destruct (quiet_fetch Hquiet batch w) as (w1 & Hfetch).
    destruct (IH (acc ++ map (error_row cabinet_name cabinet_id) batch) w1) as (w2 & Hrest).
    exists w2. cbn [parse_batches]. unfold bind, batch_rows, bind. rewrite Hfetch.
    unfold ret. rewrite Hrest. cbn [List.concat]. now rewrite map_app, app_assoc.
Qed.

Lemma iter_truthy_nonempty :
  forall x entries, Py.truthy x = true -> Py.iter x = Ok entries -> entries <> [].
Proof.
  intros x entries Ht Hi.
  destruct x as [| | |s|l|d]; try discriminate Hi; cbn in Hi; injection Hi as <-.
  - destruct s; [discriminate Ht|discriminate].
  - destruct l; [discriminate Ht|discriminate].
  - destruct d; [discriminate Ht|discriminate].
Qed.

(** An item that is normalised yields at least one row. *)
Lemma normalize_at_least_one_row :
  forall price_item rows,
    normalize cabinet_name cabinet_id price_item = Ok rows -> (1 <= List.length rows)%nat.
Proof.
  intros price_item rows Hn. destruct price_item as [| | | | |item]; try discriminate Hn.
  unfold normalize in Hn.
  destruct (Py.truthy (Py.dict_get item "sizes" (JList []))) eqn:Ht.
  - destruct (Py.iter (Py.dict_get item "sizes" (JList []))) as [entries|e] eqn:Hi;
      [|discriminate Hn].
    pose proof (iter_truthy_nonempty _ _ Ht Hi) as Hne.
    cbn [res_bind] in Hn. destruct entries as [|size rest]; [contradiction|].
    cbn [size_rows] in Hn.
    destruct (size_row cabinet_name cabinet_id item _ _ size); [|discriminate Hn].
    cbn [res_bind] in Hn.
    destruct (size_rows cabinet_name cabinet_id item _ _ rest); [|discriminate Hn].
    injection Hn as <-. cbn. lia.
  - injection Hn as <-. cbn. lia.
Qed.

Lemma normalize_all_at_least_one_row_each :
  forall data rows,
    normalize_all cabinet_name cabinet_id data = Ok rows ->
    (List.length data <= List.length rows)%nat.
Proof.
  induction data as [|price_item rest IH]; intros rows Hn.
  - cbn. lia.
  - cbn [normalize_all] in Hn.
    destruct (normalize cabinet_name cabinet_id price_item) as [rs|e] eqn:Hitem;
      [|discriminate Hn].
    cbn [res_bind] in Hn.
    destruct (normalize_all cabinet_name cabinet_id rest) as [rs'|e] eqn:Hrest;
      [|discriminate Hn].
    injection Hn as <-.
    pose proof (normalize_at_least_one_row _ _ Hitem).
    pose proof (IH _ eq_refl).
    rewrite length_app. cbn. lia.
Qed.

Lemma parse_batches_extends :
  forall bs acc w out w',
    parse_batches srv cabinet_name cabinet_id bs acc w = (Ok out, w') ->
    exists tail, out = acc ++ tail.
Proof.
  induction bs as [|batch rest IH]; intros acc w out w' Hrun.
  - injection Hrun as <- <-. exists []. now rewrite app_nil_r.
  - cbn [parse_batches] in Hrun. unfold bind in Hrun.
    destruct (batch_rows srv cabinet_name cabinet_id batch w) as [[rows|e] w1];
      [|discriminate Hrun].
    destruct (IH _ _ _ _ Hrun) as (tail & ->).
    exists (rows ++ tail). now rewrite app_assoc.
Qed.

(** C1, as the code has it.  For a batch for which the fetcher returns no
    data, the rows of the batch are one error row per identifier of the
    batch, in order.  For a batch for which the fetcher returns data, the
    rows of the batch are the normalised rows of the returned items, at
    least one per returned item, and nothing else.  The rows of every batch
    of a run that completes stand in the output, in the order of the
    batches.  When the network never yields data, a run over N identifiers
    ends with exactly the N error rows of the identifiers, in the order
    requested. *)
Theorem rows_per_batch :
  (forall batch w w',
      get_prices_by_articles srv batch w = (Ok None, w') ->
      batch_rows srv cabinet_name cabinet_id batch w
      = (Ok (map (error_row cabinet_name cabinet_id) batch), w')) /\
  (forall batch w data w',
      get_prices_by_articles srv batch w = (Ok (Some data), w') ->
      data <> [] ->
      batch_rows srv cabinet_name cabinet_id batch w
      = (normalize_all cabinet_name cabinet_id data, w') /\
      forall rows,
        normalize_all cabinet_name cabinet_id data = Ok rows ->
        (List.length data <= List.length rows)%nat) /\
  (forall batch rest acc w out w',
      parse_batches srv cabinet_name cabinet_id (batch :: rest) acc w = (Ok out, w') ->
      exists rows w1 tail,
        batch_rows srv cabinet_name cabinet_id batch w = (Ok rows, w1) /\
        parse_batches srv cabinet_name cabinet_id rest (acc ++ rows) w1 = (Ok out, w') /\
        out = acc ++ rows ++ tail) /\
  (quiet srv ->
   forall vendor_codes w,
     exists w',
       parse_basic_prices srv cabinet_name cabinet_id (Some vendor_codes) w
       = (Ok (map (error_row cabinet_name cabinet_id) vendor_codes), w')).
Proof.
  split; [|split; [|split]].
  - intros batch w w' Hfetch. unfold batch_rows, bind. now rewrite Hfetch.
  - intros batch w data w' Hfetch Hne. split.
    + unfold batch_rows, bind. rewrite Hfetch.
      destruct data; [contradiction|reflexivity].
    + apply normalize_all_at_least_one_row_each.
  - intros batch rest acc w out w' Hrun.
    cbn [parse_batches] in Hrun. unfold bind in Hrun.
    destruct (batch_rows srv cabinet_name cabinet_id batch w) as [[rows|e] w1];
      [|discriminate Hrun].
    destruct (parse_batches_extends _ _ _ _ _ Hrun) as (tail & Hout).
    exists rows, w1, tail. split; [reflexivity|]. split; [exact Hrun|].
    now rewrite Hout, app_assoc.
  - intros Hquiet vendor_codes w. unfold parse_basic_prices.
    destruct vendor_codes as [|code rest] eqn:Hcodes.
    + exists w. reflexivity.
    + rewrite <- Hcodes.
      destruct (quiet_parse_batches Hquiet (batches vendor_codes) [] w) as (w' & Hrun).
      exists w'. rewrite Hrun, concat_batches. reflexivity.
Qed.

End OrchestratorFacts.

Lemma always_500_quiet : quiet (always 50 500 None None).
Proof.
  intros w req. cbn. split; [discriminate|]. exists 6%Z. split; [reflexivity|lia].
Defined.

(** C1, witness: two identifiers and a server that answers 500 give the two
    error rows; a server that answers with one item gives the row of that
    item. *)
Lemma rows_per_batch_witness :
  (exists w',
      batch_rows (always 50 500 None None) "shop" "42" ["SKU-1"; "115224606"] initial_world
      = (Ok [error_row "shop" "42" "SKU-1"; error_row "shop" "42" "115224606"], w')) /\
  (exists rows w',
      batch_rows (always 50 200 (Some (envelope_listGoods [good_sku1])) None) "shop" "42"
        ["115224606"; "115224607"] initial_world = (Ok rows, w') /\
      (1 <= List.length rows)%nat) /\
  (exists rows w1,
      batch_rows (always 50 500 None None) "shop" "42" ["SKU-1"] initial_world
      = (Ok rows, w1) /\
      exists tail,
        [error_row "shop" "42" "SKU-1"; error_row "shop" "42" "115224606"]
        = [] ++ rows ++ tail) /\
  (exists w',
      parse_basic_prices (always 50 500 None None) "shop" "42"
        (Some ["SKU-1"; "115224606"]) initial_world
      = (Ok [error_row "shop" "42" "SKU-1"; error_row "shop" "42" "115224606"], w')).
Proof.
  split; [|split; [|split]].
  - eexists.
    exact (proj1 (rows_per_batch (always 50 500 None None) "shop" "42")
             ["SKU-1"; "115224606"] initial_world _ eq_refl).
  - destruct (proj1 (proj2 (rows_per_batch
                              (always 50 200 (Some (envelope_listGoods [good_sku1])) None)
                              "shop" "42"))
                ["115224606"; "115224607"] initial_world [good_sku1] _ eq_refl
                ltac:(discriminate)) as [Hrows Hlen].
    eexists. eexists. split; [exact Hrows|]. exact (Hlen _ eq_refl).
  - destruct (proj1 (proj2 (proj2 (rows_per_batch (always 50 500 None None) "shop" "42")))
                ["SKU-1"] [["115224606"]] [] initial_world
                [error_row "shop" "42" "SKU-1"; error_row "shop" "42" "115224606"]
                _ eq_refl) as (rows & w1 & tail & Hrows & _ & Hout).
    exists rows, w1. split; [exact Hrows|]. exists tail. exact Hout.
  - exact (proj2 (proj2 (proj2 (rows_per_batch (always 50 500 None None) "shop" "42")))
             always_500_quiet ["SKU-1"; "115224606"] initial_world).
Defined.

(** C1, counterexample: two identifiers are requested and the fetcher
    returns the item of the first only.  The output is the single row of
    that item; no row mentions the second identifier. *)
Lemma identifier_without_data_gets_no_row :
  let run := parse_basic_prices (always 50 200 (Some (envelope_listGoods [good_sku1])) None)
               "shop" "42" (Some ["115224606"; "115224607"]) initial_world in
  exists rows,
    fst run = Ok rows /\
    List.length rows = 1%nat /\
    existsb (row_mentions "115224606") rows = true /\
    existsb (row_mentions "115224607") rows = false.
Proof. eexists. repeat split. Qed.

(* ===================================================================== *)
(** ** Identifier normalisation *)
(* ===================================================================== *)

Section StringFacts.

Local Open Scope string_scope.

Lemma prefix_split :
  forall p s, String.prefix p s = true -> s = p ++ drop (String.length p) s.
Proof.
  induction p as [|a p IH]; intros s H.
  - reflexivity.
  - destruct s as [|b s]; [discriminate H|].
    cbn in H. destruct (ascii_dec a b) as [<-|]; [|discriminate H].
    cbn. f_equal. exact (IH s H).
Qed.

Lemma prefix_append :
  forall p rest, String.prefix p (p ++ rest) = true.
Proof.
  induction p as [|a p IH]; intros rest.
  - now destruct rest.
  - cbn. destruct (ascii_dec a a) as [_|Hne]; [apply IH|now elim Hne].
Qed.

Lemma drop_append :
  forall p rest, drop (String.length p) (p ++ rest) = rest.
Proof.
  induction p as [|a p IH]; intros rest; [reflexivity|]. cbn. apply IH.
Qed.

Lemma span_digits_split :
  forall s d r, span_digits s = (d, r) -> s = d ++ r /\ all_digits d = true.
Proof.
  induction s as [|c s IH]; intros d r H.
  - injection H as <- <-. split; reflexivity.
  - cbn in H. destruct (is_digit c) eqn:Hc.
    + destruct (span_digits s) as [d' r'] eqn:Hs. injection H as <- <-.
      destruct (IH d' r' eq_refl) as [-> Hd]. split; [reflexivity|].
      cbn. now rewrite Hc.
    + injection H as <- <-. split; reflexivity.
Qed.

Lemma span_digits_append :
  forall g r,
    all_digits g = true -> span_digits r = (EmptyString, r) -> span_digits (g ++ r) = (g, r).
Proof.
  induction g as [|c g IH]; intros r Hg Hr.
  - exact Hr.
  - cbn in Hg. apply andb_true_iff in Hg as [Hc Hg].
    cbn. rewrite Hc, (IH r Hg Hr). reflexivity.
Qed.

Lemma isdigit_all_digits : forall g, isdigit g = true -> all_digits g = true.
Proof. intros g H. destruct g; [discriminate H|exact H]. Qed.

(** [catalog_here] finds the match of the catalog pattern at the head of
    the string, and only that. *)
Lemma catalog_here_spec :
  forall s g, Re.catalog_here s = Some g <-> catalog_match s g.
Proof.
  intros s g. unfold Re.catalog_here, catalog_match. split.
  - intros H.
    destruct (String.prefix "/catalog/" s) eqn:Hp; [|discriminate H].
    apply prefix_split in Hp. change (String.length "/catalog/") with 9%nat in Hp.
    destruct (span_digits (drop 9 s)) as [d r] eqn:Hspan.
    apply span_digits_split in Hspan as [Hs Hd].
    destruct d as [|c d]; [discriminate H|].
    destruct (String.prefix "/detail.aspx" r) eqn:Hr; [|discriminate H].
    injection H as <-.
    apply prefix_split in Hr.
    exists (drop (String.length "/detail.aspx") r). split; [|exact Hd].
    rewrite <- Hr, <- Hs. exact Hp.
  - intros (rest & -> & Hg).
    rewrite (prefix_append "/catalog/").
    change (drop 9 ("/catalog/" ++ g ++ "/detail.aspx" ++ rest))
      with (g ++ "/detail.aspx" ++ rest).
    rewrite (span_digits_append g ("/detail.aspx" ++ rest) (isdigit_all_digits g Hg) eq_refl).
    destruct g as [|c g]; [discriminate Hg|].
    now rewrite (prefix_append "/detail.aspx").
Qed.

(** [segment_here] finds the match of the digit-segment pattern at the head
    of the string, and only that. *)
Lemma segment_here_spec :
  forall s g, Re.segment_here s = Some g <-> segment_match s g.
Proof.
  intros s g. unfold Re.segment_here, segment_match. split.
  - intros H.
    destruct (String.prefix "/" s) eqn:Hp; [|discriminate H].
    apply prefix_split in Hp. change (String.length "/") with 1%nat in Hp.
    destruct (span_digits (drop 1 s)) as [d r] eqn:Hspan.
    apply span_digits_split in Hspan as [Hs Hd].
    destruct ((6 <=? String.length d)%nat && String.prefix "/" r) eqn:Hc; [|discriminate H].
    injection H as <-.
    apply andb_true_iff in Hc as [Hlen Hr]. apply Nat.leb_le in Hlen.
    apply prefix_split in Hr.
    exists (drop (String.length "/") r). split; [|split].
    + rewrite <- Hr, <- Hs. exact Hp.
    + destruct d; [cbn in Hlen; lia|exact Hd].
    + exact Hlen.
  - intros (rest & -> & Hg & Hlen).
    rewrite (prefix_append "/").
    change (drop 1 ("/" ++ g ++ "/" ++ rest)) with (g ++ "/" ++ rest).
    rewrite (span_digits_append g ("/" ++ rest) (isdigit_all_digits g Hg) eq_refl).
    apply Nat.leb_le in Hlen. rewrite Hlen.
    now rewrite (prefix_append "/").
Qed.

End StringFacts.

Section SearchFacts.

Local Open Scope string_scope.

Variable here : string -> option string.
Variable P : string -> string -> Prop.
Hypothesis here_spec : forall s g, here s = Some g <-> P s g.

Lemma search_leftmost :
  forall article g, leftmost P article g -> Re.search here article = Some g.
Proof.
  intros article g (pre & s & Heq & Hmatch & Hmin). subst article.
  induction pre as [|c pre IH].
  - cbn [append]. apply here_spec in Hmatch.
    destruct s; cbn [Re.search]; now rewrite Hmatch.
  - cbn [append Re.search].
    destruct (here (String c (pre ++ s))) as [g'|] eqn:Hhere.
    + apply here_spec in Hhere.
      elim (Hmin EmptyString (String c (pre ++ s)) g' eq_refl); [cbn; lia|exact Hhere].
    + apply IH. intros pre' s' g' Heq Hlen.
      apply (Hmin (String c pre') s' g').
      * cbn. now rewrite Heq.
      * cbn. lia.
Qed.

Lemma search_no_match :
  forall article, no_match P article -> Re.search here article = None.
Proof.
  induction article as [|c article IH]; intros Hnone.
  - cbn. destruct (here EmptyString) as [g|] eqn:Hhere; [|reflexivity].
    apply here_spec in Hhere. elim (Hnone EmptyString EmptyString g eq_refl Hhere).
  - cbn [Re.search]. destruct (here (String c article)) as [g|] eqn:Hhere.
    + apply here_spec in Hhere. elim (Hnone EmptyString (String c article) g eq_refl Hhere).
    + apply IH. intros pre s g Heq.
      apply (Hnone (String c pre) s g). cbn. now rewrite Heq.
Qed.

(** What [search] returns is the group of the leftmost match. *)
Lemma search_found_leftmost :
  forall article g, Re.search here article = Some g -> leftmost P article g.
Proof.
  induction article as [|c article IH]; intros g Hs.
  - cbn in Hs. destruct (here EmptyString) as [g'|] eqn:Hhere; [|discriminate Hs].
    injection Hs as <-. apply here_spec in Hhere.
    exists EmptyString, EmptyString. split; [reflexivity|]. split; [exact Hhere|].
    intros pre' s' g'' _ Hlen. cbn in Hlen. lia.
  - cbn [Re.search] in Hs. destruct (here (String c article)) as [g'|] eqn:Hhere.
    + injection Hs as <-. apply here_spec in Hhere.
      exists EmptyString, (String c article). split; [reflexivity|]. split; [exact Hhere|].
      intros pre' s' g'' _ Hlen. cbn in Hlen. lia.
    + destruct (IH g Hs) as (pre & s & Heq & Hmatch & Hmin).
      exists (String c pre), s. split; [cbn; now rewrite Heq|]. split; [exact Hmatch|].
      intros pre' s' g' Heq' Hlen Hbad.
      destruct pre' as [|c' pre'].
      * cbn in Heq'. subst s'. apply here_spec in Hbad. congruence.
      * cbn in Heq'. injection Heq' as <- Heq'.
        apply (Hmin pre' s' g' Heq'); [cbn in Hlen; lia|exact Hbad].
Qed.

Lemma search_none_no_match :
  forall article, Re.search here article = None -> no_match P article.
Proof.
  induction article as [|c article IH]; intros Hs pre s g Heq Hbad.
  - destruct pre; [|discriminate Heq]. cbn in Heq. subst s.
    apply here_spec in Hbad. cbn in Hs. now rewrite Hbad in Hs.
  - cbn [Re.search] in Hs. destruct (here (String c article)) as [g'|] eqn:Hhere;
      [discriminate Hs|].
    destruct pre as [|c' pre].
    + cbn in Heq. subst s. apply here_spec in Hbad. congruence.
    + cbn in Heq. injection Heq as <- Heq.
      exact (IH Hs pre s g Heq Hbad).
Qed.

End SearchFacts.

Lemma digit_not_space : forall c, is_digit c = true -> is_space c = false.
Proof.
  intros c H. unfold is_digit, is_space in *.
  apply andb_true_iff in H as [H1 H2]. apply Nat.leb_le in H1, H2.
  apply orb_false_iff. split; apply andb_false_iff.
  - right. apply Nat.leb_gt. lia.
  - right. apply Nat.leb_gt. lia.
Qed.

Lemma rstrip_digits : forall s, all_digits s = true -> rstrip s = s.
Proof.
  induction s as [|c s IH]; intros H; [reflexivity|].
  cbn in H. apply andb_true_iff in H as [Hc Hs].
  cbn. rewrite (IH Hs). destruct s; [|reflexivity].
  now rewrite (digit_not_space c Hc).
Qed.

(** A numeric identifier is its own normal form. *)
Lemma extract_numeric :
  forall g, isdigit g = true -> _extract_article_from_url g = g.
Proof.
  intros g Hg. destruct g as [|c g]; [discriminate Hg|].
  cbn in Hg. pose proof Hg as Hall. apply andb_true_iff in Hg as [Hc Hrest].
  unfold _extract_article_from_url, startswith.
  assert (Hhttp : String.prefix "http" (String c g) = false).
  { change (String.prefix "http" (String c g))
      with (if ascii_dec "h" c then String.prefix "ttp" g else false).
    destruct (ascii_dec "h" c) as [<-|]; [discriminate Hc|reflexivity]. }
  rewrite Hhttp. unfold strip. cbn [lstrip]. rewrite (digit_not_space c Hc).
  apply rstrip_digits. exact Hall.
Qed.

(** C9, as the code has it.  An identifier that does not start with [http]
    is returned trimmed.  For one that does: the digits of the leftmost
    [/catalog/<digits>/detail.aspx] are returned; failing that, the digits of
    the leftmost path segment [/<digits>/] made of at least six digits and
    nothing else; failing that, the trimmed string.  A numeric code is
    returned as it is, so an URL from which a code is extracted and that
    code normalise to the same value. *)
Theorem extract_article_cases :
  forall article : string,
    (startswith article "http" = false ->
     _extract_article_from_url article = strip article) /\
    (startswith article "http" = true ->
     forall g, leftmost catalog_match article g -> _extract_article_from_url article = g) /\
    (startswith article "http" = true ->
     no_match catalog_match article ->
     forall g, leftmost segment_match article g -> _extract_article_from_url article = g) /\
    (startswith article "http" = true ->
     no_match catalog_match article ->
     no_match segment_match article ->
     _extract_article_from_url article = strip article) /\
    (forall g,
        isdigit g = true ->
        _extract_article_from_url article = g ->
        _extract_article_from_url g = _extract_article_from_url article).
Proof.
  intros article. unfold _extract_article_from_url at 1 2 3 4.
  split; [|split; [|split; [|split]]].
  - intros H. now rewrite H.
  - intros H g Hg. rewrite H.
    now rewrite (search_leftmost _ _ catalog_here_spec _ _ Hg).
  - intros H Hnone g Hg. rewrite H.
    rewrite (search_no_match _ _ catalog_here_spec _ Hnone).
    now rewrite (search_leftmost _ _ segment_here_spec _ _ Hg).
  - intros H Hnone Hnone'. rewrite H.
    rewrite (search_no_match _ _ catalog_here_spec _ Hnone).
    now rewrite (search_no_match _ _ segment_here_spec _ Hnone').
  - intros g Hg Heq. rewrite Heq. apply extract_numeric. exact Hg.
Qed.

(** C9, witness: a catalog URL, an URL with a numeric path segment, an URL
    with neither, and a bare code with blanks around it. *)
Lemma extract_article_cases_witness :
  _extract_article_from_url "  SKU-1 " = "SKU-1" /\
  _extract_article_from_url "https://www.wildberries.ru/catalog/115224606/detail.aspx"
    = "115224606" /\
  _extract_article_from_url "https://www.wildberries.ru/goods/115224606/feedbacks"
    = "115224606" /\
  _extract_article_from_url "https://www.wildberries.ru/brands "
    = "https://www.wildberries.ru/brands" /\
  _extract_article_from_url "115224606"
    = _extract_article_from_url "https://www.wildberries.ru/catalog/115224606/detail.aspx".
Proof.
  split; [|split; [|split; [|split]]].
  - exact (proj1 (extract_article_cases "  SKU-1 ") eq_refl).
  - exact (proj1 (proj2 (extract_article_cases
                           "https://www.wildberries.ru/catalog/115224606/detail.aspx"))
             eq_refl "115224606"
             (search_found_leftmost _ _ catalog_here_spec
                "https://www.wildberries.ru/catalog/115224606/detail.aspx" "115224606"
                eq_refl)).
  - exact (proj1 (proj2 (proj2 (extract_article_cases
                                  "https://www.wildberries.ru/goods/115224606/feedbacks")))
             eq_refl
             (search_none_no_match _ _ catalog_here_spec
                "https://www.wildberries.ru/goods/115224606/feedbacks" eq_refl)
             "115224606"
             (search_found_leftmost _ _ segment_here_spec
                "https://www.wildberries.ru/goods/115224606/feedbacks" "115224606"
                eq_refl)).
  - exact (proj1 (proj2 (proj2 (proj2 (extract_article_cases
                                         "https://www.wildberries.ru/brands "))))
             eq_refl
             (search_none_no_match _ _ catalog_here_spec
                "https://www.wildberries.ru/brands " eq_refl)
             (search_none_no_match _ _ segment_here_spec
                "https://www.wildberries.ru/brands " eq_refl)).
  - exact (proj2 (proj2 (proj2 (proj2 (extract_article_cases
                                         "https://www.wildberries.ru/catalog/115224606/detail.aspx"))))
             "115224606" eq_refl eq_refl).
Defined.

(** C9, counterexample: an URL without a catalog path whose first run of
    six digits or more is not a path segment of its own.  Nothing is
    extracted: the URL comes back whole. *)
Lemma digit_run_outside_segment_not_extracted :
  let article := "https://www.wildberries.ru/product?card=115224606" in
  startswith article "http" = true /\
  Re.search Re.catalog_here article = None /\
  first_digit_run article = Some "115224606" /\
  _extract_article_from_url article = article /\
  _extract_article_from_url article <> "115224606".
Proof. repeat split. discriminate. Qed.

(* ===================================================================== *)
(** ** Further properties: batching and the shape of a fetch *)
(* ===================================================================== *)

Lemma batches_nth :
  forall (A : Type) (l : list A) (k : nat),
    (k < (List.length l + batch_size - 1) / batch_size)%nat ->
    nth_error (batches l) k = Some (firstn batch_size (skipn (k * batch_size) l)).
Proof.
  intros A l k Hk. unfold batches, range_step.
  rewrite map_map, nth_error_map, nth_error_seq.
  destruct (Nat.ltb_spec k ((List.length l + batch_size - 1) / batch_size)) as [_|Hge];
    [|lia].
  cbn [option_map]. unfold slice. f_equal. f_equal. lia.
Qed.

Lemma batches_length :
  forall (A : Type) (l : list A),
    List.length (batches l) = ((List.length l + batch_size - 1) / batch_size)%nat.
Proof.
  intros A l. unfold batches, range_step. now rewrite !length_map, length_seq.
Qed.

(** X1: the batches of a list, put end to end, are the list; there are
    [ceil(n / 100)] of them; none is empty, none has more than 100 elements,
    and every batch but the last has exactly 100. *)
Theorem batches_partition :
  forall (A : Type) (l : list A),
    List.concat (batches l) = l /\
    List.length (batches l) = ((List.length l + 99) / 100)%nat /\
    (forall i b,
        nth_error (batches l) i = Some b ->
        (1 <= List.length b <= 100)%nat /\
        (S i < List.length (batches l) -> List.length b = 100%nat)).
Proof.
  intros A l. split; [apply concat_batches|]. split.
  - rewrite batches_length. unfold batch_size. f_equal. lia.
  - intros i b Hb.
    assert (Hi : (i < List.length (batches l))%nat)
      by (apply nth_error_Some; congruence).
    pose proof Hi as Hi'. rewrite batches_length in Hi'.
    rewrite (batches_nth _ l i Hi') in Hb.
    assert (Hlen : List.length b
                   = Nat.min batch_size (List.length l - i * batch_size)).
    { replace b with (firstn batch_size (skipn (i * batch_size) l)) by congruence.
      now rewrite length_firstn, length_skipn. }
    rewrite Hlen, batches_length. unfold batch_size in *.
    pose proof (Nat.div_mod_eq (List.length l + 100 - 1) 100) as Hdiv.
    pose proof (Nat.mod_upper_bound (List.length l + 100 - 1) 100 ltac:(lia)) as Hmod.
    split; [|intros Hlast]; lia.
Qed.

Lemma batches_nil : forall A : Type, batches (@nil A) = [].
Proof. reflexivity. Qed.

Lemma strategy_B_sends_listing :
  forall srv cleaned w r w',
    strategy_B srv cleaned w = (r, w') ->
    w' = after_request srv w get_listing /\
    (forall found, r = Ok (Some found) -> found <> []).
Proof.
  intros srv cleaned w r w' Hrun.
  unfold strategy_B, bind in Hrun. rewrite session_request_run in Hrun.
  destruct (result (srv w get_listing)) as [resp|].
  2:{ injection Hrun as <- <-. split; [reflexivity|discriminate]. }
  destruct (status_code resp =? 200)%Z.
  2:{ injection Hrun as <- <-. split; [reflexivity|discriminate]. }
  destruct (body resp) as [result_|].
  2:{ injection Hrun as <- <-. split; [reflexivity|discriminate]. }
  unfold lift in Hrun.
  destruct (absorb_B cleaned result_) as [found|e].
  - destruct found as [|g rest]; injection Hrun as <- <-.
    + split; [reflexivity|discriminate].
    + split; [reflexivity|]. intros found Hf. injection Hf as <-. discriminate.
  - injection Hrun as <- <-. split; [reflexivity|discriminate].
Qed.

Lemma strategy_A_phase_requests :
  forall srv articles w st w1,
    strategy_A_phase srv (map _extract_article_from_url articles) w = (Ok st, w1) ->
    requests_of (trace w1)
      = requests_of (trace w) ++ map post_of_batch (batches (numeric_of articles)).
Proof.
  intros srv articles w st w1 Hphase.
  unfold strategy_A_phase, bind, time_time in Hphase. fold (numeric_of articles) in Hphase.
  destruct (numeric_of articles) as [|a rest] eqn:Hnum.
  - injection Hphase as <- <-. rewrite batches_nil. cbn. now rewrite app_nil_r.
  - exact (proj1 (strategy_A_sends_each_batch_once srv _ _ _ _ _ Hphase)).
Qed.

(** X2: a fetch that returns has sent one POST per batch of the numeric
    identifiers, in order, each exactly once, and after them either nothing
    or the one listing request of Strategy B; it sends nothing else. *)
Theorem fetch_requests_shape :
  forall (srv : server) (articles : list string) (w w' : world) (r : option (list json)),
    get_prices_by_articles srv articles w = (Ok r, w') ->
    exists tail,
      requests_of (trace w')
        = requests_of (trace w) ++ map post_of_batch (batches (numeric_of articles)) ++ tail /\
      (tail = [] \/ tail = [get_listing]).
Proof.
  intros srv articles w w' r Hrun.
  unfold get_prices_by_articles, bind in Hrun.
  destruct (strategy_A_phase srv (map _extract_article_from_url articles) w)
    as [[st|e] w1] eqn:Hphase; [|discriminate Hrun].
  pose proof (strategy_A_phase_requests _ _ _ _ _ Hphase) as Hreq.
  destruct (all_results st) as [|g found].
  - destruct (strategy_B_sends_listing _ _ _ _ _ Hrun) as [-> _].
    exists [get_listing]. split; [|now right].
    rewrite requests_of_after_request, Hreq. now rewrite <- app_assoc.
  - injection Hrun as <- <-. exists []. split; [|now left].
    now rewrite app_nil_r.
Qed.

(** X2, witness: 101 numeric identifiers, the first batch answered with a
    row and the second with 400. *)
Lemma fetch_requests_shape_witness :
  exists w' tail,
    requests_of (trace w')
      = requests_of (trace initial_world)
        ++ map post_of_batch (batches (numeric_of (numeric_ids 101))) ++ tail /\
    (tail = [] \/ tail = [get_listing]).
Proof.
  eexists.
  refine (fetch_requests_shape data_then_400 (numeric_ids 101) initial_world _
            (Some [good_sku1]) _).
  vm_compute. reflexivity.
Defined.

(** X3: the fetcher never returns an empty list: its result is [None] or a
    list with at least one element, so that [if not prices_data] in the
    caller is the test for [None]. *)
Theorem fetch_result_none_or_nonempty :
  forall (srv : server) (articles : list string) (w w' : world) (found : list json),
    get_prices_by_articles srv articles w = (Ok (Some found), w') ->
    found <> [].
Proof.
  intros srv articles w w' found Hrun.
  unfold get_prices_by_articles, bind in Hrun.
  destruct (strategy_A_phase srv (map _extract_article_from_url articles) w)
    as [[st|e] w1]; [|discriminate Hrun].
  destruct (all_results st) as [|g rest] eqn:Hres.
  - exact (proj2 (strategy_B_sends_listing _ _ _ _ _ Hrun) found eq_refl).
  - injection Hrun as <- _. discriminate.
Qed.

(** X3, witness: a listing in which one row is requested. *)
Lemma fetch_result_none_or_nonempty_witness : [good_sku1] <> [].
Proof.
  exact (fetch_result_none_or_nonempty
           (listing_server 400 (envelope_listGoods [good_sku1; good_sku2]))
           ["SKU-1"] initial_world _ [good_sku1] eq_refl).
Defined.

Lemma post_batch_reply_of :
  forall srv ms a batch st w,
    acceptable a = true ->
    (forall w1,
        requests_of (trace w1) = requests_of (trace w) ->
        srv w1 (post_of_batch batch) = reply_of ms a) ->
    exists st' w',
      post_batch srv batch st w = (Ok st', w') /\
      all_results st' = all_results st ++ goods_of a /\
      requests_of (trace w') = requests_of (trace w) ++ [post_of_batch batch].
Proof.
  intros srv ms a batch st w Hacc Hreply.
  destruct (window_check_ok st w) as (st1 & w1 & Hwin & Hres & Hreq & _).
  assert (Hrun : exists st' w',
             post_batch srv batch st w = (Ok st', w') /\
             all_results st' = all_results st ++ goods_of a).
  { unfold post_batch, bind. rewrite Hwin, session_request_run.
    fold (post_of_batch batch). rewrite (Hreply w1 Hreq).
    destruct a as [goods|status retry|]; cbn [reply_of answer result goods_of].
    - cbn [status_code body Z.eqb Pos.eqb]. unfold lift.
      destruct (absorb_A_envelopes_agree goods (all_results st1) Hacc) as [Habs _].
      rewrite Habs, time_sleep_run. cbn [Z.ltb Z.compare].
      eexists. eexists. split; [reflexivity|]. cbn [all_results]. now rewrite Hres.
    - cbn [acceptable] in Hacc. apply andb_true_iff in Hacc as [Hstatus Hretry].
      apply negb_true_iff in Hstatus. cbn [status_code body retry_after].
      rewrite Hstatus.
      destruct (status =? 400)%Z.
      { eexists. eexists. split; [reflexivity|]. now rewrite Hres, app_nil_r. }
      destruct (status =? 429)%Z.
      2:{ eexists. eexists. split; [reflexivity|]. now rewrite Hres, app_nil_r. }
      unfold lift.
      assert (Hsec : exists n, retry_seconds (option_map Seconds retry) = Ok n /\ (0 <= n)%Z).
      { destruct retry as [n|]; [exists n|exists 6%Z]; split;
          [reflexivity|apply Z.leb_le; exact Hretry|reflexivity|lia]. }
      destruct Hsec as (n & Hsec & Hn). rewrite Hsec, time_sleep_run.
      replace (1000 * n <? 0)%Z with false by (symmetry; apply Z.ltb_ge; lia).
      eexists. eexists. split; [reflexivity|]. now rewrite Hres, app_nil_r.
    - eexists. eexists. split; [reflexivity|]. now rewrite Hres, app_nil_r. }
  destruct Hrun as (st' & w' & Hrun & Hall).
  exists st', w'. split; [exact Hrun|]. split; [exact Hall|].
  exact (proj1 (post_batch_sends_once srv _ _ _ _ _ Hrun)).
Qed.

Lemma strategy_A_scripted :
  forall ms default answers bs pre st w,
    List.length answers = List.length bs ->
    forallb acceptable answers = true ->
    List.length pre = List.length (requests_of (trace w)) ->
    exists st' w',
      strategy_A (scripted (pre ++ map (reply_of ms) answers) default) bs st w = (Ok st', w') /\
      all_results st' = all_results st ++ List.concat (map goods_of answers).
Proof.
  intros ms default answers.
  induction answers as [|a answers IH]; intros bs pre st w Hlen Hacc Hpre.
  - destruct bs; [|discriminate Hlen]. exists st, w. split; [reflexivity|].
    cbn. now rewrite app_nil_r.
  - destruct bs as [|batch bs]; [discriminate Hlen|].
    cbn in Hlen. injection Hlen as Hlen.
    cbn [forallb] in Hacc. apply andb_true_iff in Hacc as [Ha Hrest].
    destruct (post_batch_reply_of
                (scripted (pre ++ map (reply_of ms) (a :: answers)) default)
                ms a batch st w Ha) as (st1 & w1 & Hstep & Hall1 & Hreq1).
    { intros w1 Hreq. unfold scripted. rewrite Hreq, <- Hpre. cbn [map].
      apply nth_middle. }
    destruct (IH bs (pre ++ [reply_of ms a]) st1 w1 Hlen Hrest) as (st2 & w2 & Hrun & Hall2).
    { rewrite Hreq1, !length_app, Hpre. reflexivity. }
    exists st2, w2. split.
    + cbn [strategy_A]. unfold bind. rewrite Hstep.
      cbn [map]. rewrite <- app_assoc in Hrun. exact Hrun.
    + rewrite Hall2, Hall1. cbn [map List.concat]. now rewrite app_assoc.
Qed.

(** X4: when the batches of Strategy A are answered one by one, a page of
    goods, a refusal or no answer each, the fetcher returns the goods of
    the pages in the order of the batches; refused and unanswered batches
    add nothing and take nothing away. *)
Theorem strategy_A_collects_in_batch_order :
  forall (ms : N) (default : reply) (answers : list batch_answer) (articles : list string),
    List.length answers = List.length (batches (numeric_of articles)) ->
    forallb acceptable answers = true ->
    List.concat (map goods_of answers) <> [] ->
    fst (get_prices_by_articles (scripted (map (reply_of ms) answers) default)
           articles initial_world)
    = Ok (Some (List.concat (map goods_of answers))).
Proof.
  intros ms default answers articles Hlen Hacc Hne.
  set (st0 := {| all_results := []; request_count := 0; start_time := 0 |}).
  destruct (strategy_A_scripted ms default answers (batches (numeric_of articles)) []
              st0 initial_world Hlen Hacc eq_refl) as (st & w1 & Hrun & Hall).
  cbn [app all_results st0] in Hrun, Hall.
  assert (Hphase : strategy_A_phase (scripted (map (reply_of ms) answers) default)
                     (map _extract_article_from_url articles) initial_world = (Ok st, w1)).
  { unfold strategy_A_phase, bind, time_time. fold (numeric_of articles).
    cbn [now initial_world]. fold st0.
    destruct (numeric_of articles) as [|x rest] eqn:Hnum; [|exact Hrun].
    rewrite batches_nil in Hrun. exact Hrun. }
  unfold get_prices_by_articles, bind. rewrite Hphase, Hall.
  destruct (List.concat (map goods_of answers)); [contradiction|reflexivity].
Qed.

(** X4, witness: 101 identifiers, a page for the first batch and a 500 for
    the second. *)
Lemma strategy_A_collects_in_batch_order_witness :
  fst (get_prices_by_articles
         (scripted (map (reply_of 50) [Page [good_sku1; good_sku2]; Refused 500 None])
                   (answer 50 404 None None))
         (numeric_ids 101) initial_world)
  = Ok (Some (List.concat (map goods_of [Page [good_sku1; good_sku2]; Refused 500 None]))).
Proof.
  apply (strategy_A_collects_in_batch_order 50 (answer 50 404 None None)
           [Page [good_sku1; good_sku2]; Refused 500 None] (numeric_ids 101)).
  - vm_compute. reflexivity.
  - reflexivity.
  - discriminate.
Defined.

(** X5: a single batch of Strategy A answered 200 yields the same result,
    the goods themselves, whether they arrive as [{data: {listGoods: ...}}],
    as [{data: [...]}] or as a bare list; the fetcher returns after the
    600 ms sleep and sends no listing request. *)
Theorem strategy_A_accepts_three_envelopes :
  forall (srv : server) (articles : list string) (w : world) (r : response)
         (goods : list json) (payload : json),
    numeric_of articles <> [] ->
    (List.length (numeric_of articles) <= batch_size)%nat ->
    result (srv w (post_of_batch (numeric_of articles))) = Responded r ->
    status_code r = 200%Z ->
    body r = Some payload ->
    In payload [envelope_listGoods goods; envelope_data goods; envelope_bare goods] ->
    forallb is_object goods = true ->
    goods <> [] ->
    get_prices_by_articles srv articles w
    = (Ok (Some goods),
       after_sleep (after_request srv w (post_of_batch (numeric_of articles))) 600).
Proof.
  intros srv articles w r goods payload Hne Hlen Hres Hstatus Hbody Hin Hobj Hgoods.
  assert (Habs : absorb_A payload [] = Ok goods).
  { destruct (absorb_A_envelopes_agree goods [] Hobj) as (H1 & H2 & H3).
    cbn [app] in H1, H2, H3.
    destruct Hin as [<-|[<-|[<-|[]]]]; assumption. }
  set (st0 := {| all_results := []; request_count := 0; start_time := now w |}).
  assert (Hpost : post_batch srv (numeric_of articles) st0 w
                  = (Ok {| all_results := goods; request_count := 1; start_time := now w |},
                     after_sleep (after_request srv w (post_of_batch (numeric_of articles)))
                       600)).
  { unfold post_batch, bind.
    change (window_check st0 w) with (@ret loop_state st0 w). unfold ret at 1.
    rewrite session_request_run. fold (post_of_batch (numeric_of articles)).
    rewrite Hres, Hstatus, Hbody. cbn [Z.eqb Pos.eqb]. unfold lift.
    cbn [all_results st0]. rewrite Habs, time_sleep_run. reflexivity. }
  unfold get_prices_by_articles, bind, strategy_A_phase, bind, time_time.
  fold (numeric_of articles). fold st0.
  destruct (numeric_of articles) as [|a rest] eqn:Hnum; [contradiction|].
  rewrite <- Hnum in *. rewrite (batches_single _ _ Hne Hlen).
  cbn [strategy_A]. unfold bind. rewrite Hpost. unfold ret.
  cbn [all_results]. destruct goods; [contradiction|reflexivity].
Qed.

(** X5, witness: one identifier, the goods as a bare list. *)
Lemma strategy_A_accepts_three_envelopes_witness :
  get_prices_by_articles (always 50 200 (Some (envelope_bare [good_sku1])) None)
    ["115224606"] initial_world
  = (Ok (Some [good_sku1]),
     {| now := 650; trace := [Sent 0 (post_of_batch ["115224606"]); Slept 50 600] |}).
Proof.
  exact (strategy_A_accepts_three_envelopes
           (always 50 200 (Some (envelope_bare [good_sku1])) None)
           ["115224606"] initial_world
           {| status_code := 200; body := Some (envelope_bare [good_sku1]);
              retry_after := None |}
           [good_sku1] (envelope_bare [good_sku1])
           ltac:(discriminate) ltac:(apply Nat.leb_le; reflexivity)
           eq_refl eq_refl eq_refl ltac:(right; right; left; reflexivity)
           eq_refl ltac:(discriminate)).
Defined.

(* ===================================================================== *)
(** ** Further properties: pacing *)
(* ===================================================================== *)

Lemma sent_times_app :
  forall tr tr', sent_times (tr ++ tr') = sent_times tr ++ sent_times tr'.
Proof.
  intros tr tr'. induction tr as [|e tr IH]; [reflexivity|].
  destruct e; cbn; now rewrite IH.
Qed.

Lemma new_events_app :
  forall w w' evs, trace w' = trace w ++ evs -> new_events w w' = evs.
Proof.
  intros w w' evs H. unfold new_events. rewrite H.
  rewrite skipn_app, skipn_all, Nat.sub_diag. reflexivity.
Qed.

Lemma paced_weaken :
  forall times t0 t0' t1, (t0' <= t0)%Z -> paced t0 times t1 -> paced t0' times t1.
Proof.
  intros [|t rest] t0 t0' t1 Hle H; cbn in *; [lia|].
  destruct H as [H1 H2]. split; [lia|exact H2].
Qed.

Lemma paced_app :
  forall l1 l2 t0 t1 t2, paced t0 l1 t1 -> paced t1 l2 t2 -> paced t0 (l1 ++ l2) t2.
Proof.
  induction l1 as [|t l1 IH]; intros l2 t0 t1 t2 H1 H2.
  - cbn in *. exact (paced_weaken _ _ _ _ H1 H2).
  - cbn in *. destruct H1 as [Ht H1]. split; [exact Ht|]. exact (IH _ _ _ _ H1 H2).
Qed.

Lemma paced_lower_bound :
  forall times t0 t1,
    paced t0 times t1 ->
    forall j tj, nth_error (times ++ [t1]) j = Some tj -> (t0 + 600 * Z.of_nat j <= tj)%Z.
Proof.
  induction times as [|t rest IH]; intros t0 t1 H j tj Hj.
  - cbn [paced app] in H, Hj. destruct j as [|j]; [|destruct j; discriminate Hj].
    cbn [nth_error] in Hj. injection Hj as <-. lia.
  - cbn [paced] in H. destruct H as [Ht H]. destruct j as [|j].
    + cbn [app nth_error] in Hj. injection Hj as <-. lia.
    + cbn [app nth_error] in Hj. pose proof (IH _ _ H j tj Hj). lia.
Qed.

Lemma paced_spaced_snoc :
  forall times t0 t1, paced t0 times t1 -> spaced (times ++ [t1]).
Proof.
  induction times as [|t rest IH]; intros t0 t1 H i j ti tj Hij Hi Hj.
  - destruct i as [|i]; [|destruct i; discriminate Hi].
    destruct j as [|j]; [|destruct j; discriminate Hj].
    cbn [app nth_error] in Hi, Hj. injection Hi as <-. injection Hj as <-. lia.
  - cbn [paced] in H. destruct H as [Ht H]. destruct i as [|i].
    + cbn [app nth_error] in Hi. injection Hi as <-. destruct j as [|j].
      * cbn [app nth_error] in Hj. injection Hj as <-. lia.
      * cbn [app nth_error] in Hj. pose proof (paced_lower_bound _ _ _ H j tj Hj).
        lia.
    + destruct j as [|j]; [lia|]. cbn [app nth_error] in Hi, Hj.
      pose proof (IH _ _ H i j ti tj ltac:(lia) Hi Hj) as Hgap.
      replace (S j - S i)%nat with (j - i)%nat by lia. exact Hgap.
Qed.

Lemma spaced_prefix :
  forall times more, spaced (times ++ more) -> spaced times.
Proof.
  intros times more H i j ti tj Hij Hi Hj.
  apply (H i j ti tj Hij).
  - rewrite nth_error_app1; [exact Hi|]. apply nth_error_Some. congruence.
  - rewrite nth_error_app1; [exact Hj|]. apply nth_error_Some. congruence.
Qed.

Section PacingFacts.

Variable srv : server.

(** What the window check adds to the trace: nothing, or one sleep. *)
Lemma window_check_events :
  forall st w st1 w1,
    window_check st w = (Ok st1, w1) ->
    (now w <= now w1)%Z /\
    (w1 = w \/ exists d, (0 < d)%Z /\ w1 = after_sleep w d) /\
    (window_invariant st w -> w1 = w /\ window_invariant st1 w1).
Proof.
  intros st w st1 w1 Hwin. unfold window_check in Hwin.
  destruct (10 <=? request_count st)%Z eqn:Hcount.
  - unfold bind, time_time in Hwin.
    destruct (now w - start_time st <? 6000)%Z eqn:Hel.
    + rewrite time_sleep_run in Hwin. apply Z.ltb_lt in Hel.
      set (d := (6000 - (now w - start_time st))%Z) in Hwin.
      assert (Hd : (0 < d)%Z) by (subst d; lia).
      assert (Hinv : ~ window_invariant st w).
      { unfold window_invariant. apply Z.leb_le in Hcount. lia. }
      clearbody d.
      replace (d <? 0)%Z with false in Hwin by (symmetry; apply Z.ltb_ge; lia).
      unfold ret in Hwin. injection Hwin as <- <-. split; [cbn [now after_sleep]; lia|].
      split.
      * right. exists d. split; [exact Hd|reflexivity].
      * intros Hyes. contradiction.
    + unfold ret in Hwin. injection Hwin as <- <-. split; [lia|]. split; [now left|].
      intros _. split; [reflexivity|]. unfold window_invariant.
      cbn [request_count start_time]. lia.
  - injection Hwin as <- <-. split; [lia|]. split; [now left|]. intros H. split; [reflexivity|exact H].
Qed.

(** On a healthy server an iteration adds its request, sent no earlier than
    the iteration starts, and ends at least 600 ms after sending it. *)
Lemma post_batch_paced :
  healthy srv ->
  forall batch st w st' w',
    post_batch srv batch st w = (Ok st', w') ->
    exists evs, trace w' = trace w ++ evs /\ paced (now w) (sent_times evs) (now w').
Proof.
  intros Hh batch st w st' w' Hrun.
  unfold post_batch, bind in Hrun.
  destruct (window_check st w) as [[st1|e] w1] eqn:Hwin; [|discriminate Hrun].
  destruct (window_check_events _ _ _ _ Hwin) as (Hnow & Hevs & _).
  rewrite session_request_run in Hrun. fold (post_of_batch batch) in Hrun.
  destruct (Hh w1 (post_of_batch batch) eq_refl) as (r & Hres & Hstatus & Hbody).
  rewrite Hres, Hstatus in Hrun. cbn [Z.eqb Pos.eqb] in Hrun.
  destruct (body r) as [result_|]; [|contradiction].
  unfold lift in Hrun.
  destruct (absorb_A result_ (all_results st1)) as [acc|e]; [|discriminate Hrun].
  rewrite time_sleep_run in Hrun. cbn [Z.ltb Z.compare] in Hrun.
  unfold ret in Hrun. injection Hrun as _ <-.
  pose proof (N2Z.is_nonneg (latency (srv w1 (post_of_batch batch)))) as Hlat.
  destruct Hevs as [->|(d & Hd & ->)].
  - eexists. split.
    + cbn [trace after_sleep after_request]. rewrite <- app_assoc. reflexivity.
    + cbn. lia.
  - eexists. split.
    + cbn [trace after_sleep after_request]. rewrite <- !app_assoc. reflexivity.
    + cbn. lia.
Qed.

Lemma strategy_A_paced :
  healthy srv ->
  forall bs st w st' w',
    strategy_A srv bs st w = (Ok st', w') ->
    exists evs, trace w' = trace w ++ evs /\ paced (now w) (sent_times evs) (now w').
Proof.
  intros Hh. induction bs as [|batch rest IH]; intros st w st' w' Hrun.
  - injection Hrun as _ <-. exists []. split; [now rewrite app_nil_r|cbn; lia].
  - cbn [strategy_A] in Hrun. unfold bind in Hrun.
    destruct (post_batch srv batch st w) as [[st1|e] w1] eqn:Hstep; [|discriminate Hrun].
    destruct (post_batch_paced Hh _ _ _ _ _ Hstep) as (evs1 & Htr1 & Hp1).
    destruct (IH _ _ _ _ Hrun) as (evs2 & Htr2 & Hp2).
    exists (evs1 ++ evs2). split.
    + rewrite Htr2, Htr1. now rewrite app_assoc.
    + rewrite sent_times_app. exact (paced_app _ _ _ _ _ Hp1 Hp2).
Qed.

(** X6: when every POST is answered 200 with a JSON body, the requests of a
    fetch that returns, the listing request included, leave at least 600 ms
    after one another: requests [i] and [j] are at least [600 * (j - i)] ms
    apart, so that no eleven of them fall within six seconds. *)
Theorem requests_paced_on_success :
  healthy srv ->
  forall (articles : list string) (w w' : world) (r : option (list json)),
    get_prices_by_articles srv articles w = (Ok r, w') ->
    spaced (sent_times (new_events w w')).
Proof.
  intros Hh articles w w' r Hrun.
  unfold get_prices_by_articles, bind in Hrun.
  destruct (strategy_A_phase srv (map _extract_article_from_url articles) w)
    as [[st|e] w1] eqn:Hphase; [|discriminate Hrun].
  assert (Hp : exists evs,
             trace w1 = trace w ++ evs /\ paced (now w) (sent_times evs) (now w1)).
  { unfold strategy_A_phase, bind, time_time in Hphase.
    destruct (filter isdigit (map _extract_article_from_url articles)).
    - injection Hphase as _ <-. exists []. split; [now rewrite app_nil_r|cbn; lia].
    - exact (strategy_A_paced Hh _ _ _ _ _ Hphase). }
  destruct Hp as (evs & Htr & Hp).
  pose proof (paced_spaced_snoc _ _ _ Hp) as Hsp.
  destruct (all_results st) as [|g found].
  - destruct (strategy_B_sends_listing _ _ _ _ _ Hrun) as [-> _].
    rewrite (new_events_app w _ (evs ++ [Sent (now w1) get_listing])).
    + rewrite sent_times_app. exact Hsp.
    + cbn [trace after_request]. rewrite Htr. now rewrite app_assoc.
  - injection Hrun as _ <-. rewrite (new_events_app w w1 evs Htr).
    exact (spaced_prefix _ _ Hsp).
Qed.

(** An iteration keeps the window invariant and adds a request with one
    sleep at most after it. *)
Lemma post_batch_request_led :
  forall batch st w st' w',
    window_invariant st w ->
    post_batch srv batch st w = (Ok st', w') ->
    window_invariant st' w' /\
    exists evs, trace w' = trace w ++ evs /\ request_led evs.
Proof.
  intros batch st w st' w' Hinv Hrun.
  unfold post_batch, bind in Hrun.
  destruct (window_check st w) as [[st1|e] w1] eqn:Hwin; [|discriminate Hrun].
  destruct (window_check_events _ _ _ _ Hwin) as (_ & _ & Hkeep).
  destruct (Hkeep Hinv) as [-> Hinv1]. clear Hkeep Hwin.
  rewrite session_request_run in Hrun. fold (post_of_batch batch) in Hrun.
  pose proof (N2Z.is_nonneg (latency (srv w (post_of_batch batch)))) as Hlat.
  assert (Hsent : window_invariant st1 (after_request srv w (post_of_batch batch)) /\
                  exists evs,
                    trace (after_request srv w (post_of_batch batch)) = trace w ++ evs /\
                    request_led evs).
  { split.
    - unfold window_invariant in *. cbn [now after_request]. lia.
    - eexists. split; [reflexivity|]. apply led_sent, led_nil. }
  assert (Hslept : forall d st2,
             (0 <= d)%Z ->
             (request_count st2 <= request_count st1 + 1)%Z ->
             (request_count st2 = request_count st1 + 1 -> 600 <= d)%Z ->
             start_time st2 = start_time st1 ->
             window_invariant st2 (after_sleep (after_request srv w (post_of_batch batch)) d) /\
             exists evs,
               trace (after_sleep (after_request srv w (post_of_batch batch)) d)
                 = trace w ++ evs /\
               request_led evs).
  { intros d st2 Hd Hc Hc' Hs. split.
    - unfold window_invariant in *. cbn [now after_sleep after_request]. rewrite Hs.
      destruct (Z.eq_dec (request_count st2) (request_count st1 + 1)) as [Heq|Hneq].
      + specialize (Hc' Heq). lia.
      + lia.
    - eexists. split.
      + cbn [trace after_sleep after_request]. rewrite <- app_assoc. reflexivity.
      + apply led_sent_slept, led_nil. }
  destruct (result (srv w (post_of_batch batch))) as [r|].
  2:{ injection Hrun as <- <-. exact Hsent. }
  destruct (status_code r =? 200)%Z.
  - destruct (body r) as [result_|].
    2:{ injection Hrun as <- <-. exact Hsent. }
    unfold lift in Hrun.
    destruct (absorb_A result_ (all_results st1)) as [acc|e]; [|discriminate Hrun].
    rewrite time_sleep_run in Hrun. cbn [Z.ltb Z.compare] in Hrun.
    unfold ret in Hrun. injection Hrun as <- <-.
    apply Hslept; cbn; lia.
  - destruct (status_code r =? 400)%Z.
    { injection Hrun as <- <-. exact Hsent. }
    destruct (status_code r =? 429)%Z.
    2:{ injection Hrun as <- <-. exact Hsent. }
    unfold lift in Hrun.
    destruct (retry_seconds (retry_after r)) as [retry|e]; [|discriminate Hrun].
    rewrite time_sleep_run in Hrun.
    set (d := (1000 * retry)%Z) in Hrun.
    clearbody d.
    destruct (d <? 0)%Z eqn:Hneg; [discriminate Hrun|].
    unfold ret in Hrun. injection Hrun as <- <-.
    apply Z.ltb_ge in Hneg. apply Hslept; lia.
Qed.

Lemma request_led_app :
  forall evs1 evs2, request_led evs1 -> request_led evs2 -> request_led (evs1 ++ evs2).
Proof.
  intros evs1 evs2 H1 H2. induction H1; cbn.
  - exact H2.
  - now apply led_sent.
  - now apply led_sent_slept.
Qed.

Lemma strategy_A_request_led :
  forall bs st w st' w',
    window_invariant st w ->
    strategy_A srv bs st w = (Ok st', w') ->
    exists evs, trace w' = trace w ++ evs /\ request_led evs.
Proof.
  induction bs as [|batch rest IH]; intros st w st' w' Hinv Hrun.
  - injection Hrun as _ <-. exists []. split; [now rewrite app_nil_r|constructor].
  - cbn [strategy_A] in Hrun. unfold bind in Hrun.
    destruct (post_batch srv batch st w) as [[st1|e] w1] eqn:Hstep; [|discriminate Hrun].
    destruct (post_batch_request_led _ _ _ _ _ Hinv Hstep) as (Hinv1 & evs1 & Htr1 & Hled1).
    destruct (IH _ _ _ _ Hinv1 Hrun) as (evs2 & Htr2 & Hled2).
    exists (evs1 ++ evs2). split.
    + rewrite Htr2, Htr1. now rewrite app_assoc.
    + exact (request_led_app _ _ Hled1 Hled2).
Qed.

(** X7: whatever the server answers, the only sleeps of a fetch that
    returns come right after a request (600 ms after a 200, [Retry-After]
    after a 429): the wait of the window check never takes place, because
    whenever ten requests are counted six seconds have passed. *)
Theorem window_wait_never_taken :
  forall (articles : list string) (w w' : world) (r : option (list json)),
    get_prices_by_articles srv articles w = (Ok r, w') ->
    request_led (new_events w w').
Proof.
  intros articles w w' r Hrun.
  unfold get_prices_by_articles, bind in Hrun.
  destruct (strategy_A_phase srv (map _extract_article_from_url articles) w)
    as [[st|e] w1] eqn:Hphase; [|discriminate Hrun].
  assert (Hled : exists evs, trace w1 = trace w ++ evs /\ request_led evs).
  { unfold strategy_A_phase, bind, time_time in Hphase.
    destruct (filter isdigit (map _extract_article_from_url articles)).
    - injection Hphase as _ <-. exists []. split; [now rewrite app_nil_r|constructor].
    - apply (strategy_A_request_led _ _ _ _ _) with (2 := Hphase).
      unfold window_invariant. cbn. lia. }
  destruct Hled as (evs & Htr & Hled).
  destruct (all_results st) as [|g found].
  - destruct (strategy_B_sends_listing _ _ _ _ _ Hrun) as [-> _].
    rewrite (new_events_app w _ (evs ++ [Sent (now w1) get_listing])).
    + apply request_led_app; [exact Hled|]. apply led_sent, led_nil.
    + cbn [trace after_request]. rewrite Htr. now rewrite app_assoc.
  - injection Hrun as _ <-. now rewrite (new_events_app w w1 evs Htr).
Qed.

End PacingFacts.

Lemma always_page_healthy :
  healthy (always 50 200 (Some (envelope_listGoods [good_sku1])) None).
Proof.
  intros w req _. eexists. split; [reflexivity|]. split; [reflexivity|discriminate].
Defined.

(** X6, witness: 101 identifiers, every request answered with a page after
    50 ms. *)
Lemma requests_paced_on_success_witness :
  exists r w',
    get_prices_by_articles (always 50 200 (Some (envelope_listGoods [good_sku1])) None)
      (numeric_ids 101) initial_world = (Ok r, w') /\
    spaced (sent_times (new_events initial_world w')).
Proof.
  eexists. eexists.
  assert (Hrun : get_prices_by_articles
                   (always 50 200 (Some (envelope_listGoods [good_sku1])) None)
                   (numeric_ids 101) initial_world
                 = (Ok (Some [good_sku1; good_sku1]),
                    snd (get_prices_by_articles
                           (always 50 200 (Some (envelope_listGoods [good_sku1])) None)
                           (numeric_ids 101) initial_world)))
    by (vm_compute; reflexivity).
  split; [exact Hrun|].
  exact (requests_paced_on_success _ always_page_healthy _ _ _ _ Hrun).
Defined.

(** X7, witness: a 429 with [Retry-After], then the listing request. *)
Lemma window_wait_never_taken_witness :
  request_led [Sent 0 (post_of_batch ["115224606"]); Slept 50 2000; Sent 2050 get_listing].
Proof.
  exact (window_wait_never_taken throttle_once ["115224606"] initial_world _ None eq_refl).
Defined.

(* ===================================================================== *)
(** ** Further properties: the rows *)
(* ===================================================================== *)

Section RowFacts.

Variables cabinet_name cabinet_id : string.

Lemma size_rows_ok_objects :
  forall item vendor_code nm_id sizes rows,
    size_rows cabinet_name cabinet_id item vendor_code nm_id sizes = Ok rows ->
    forallb is_object sizes = true.
Proof.
  intros item vendor_code nm_id sizes.
  induction sizes as [|size rest IH]; intros rows H; [reflexivity|].
  cbn [size_rows] in H.
  destruct size as [| | | | |sz]; try discriminate H.
  cbn [size_row res_bind] in H.
  destruct (size_rows cabinet_name cabinet_id item vendor_code nm_id rest) as [rs|e];
    [|discriminate H].
  cbn. exact (IH rs eq_refl).
Qed.

(** X8: an item is normalised without an exception exactly when it is an
    object whose [sizes] is absent or falsy, or is a list of objects; a
    [sizes] that is a non-empty string or object, a number or [True], or a
    list with an entry that is not an object, makes the normaliser raise. *)
Theorem normalize_succeeds_iff :
  forall price_item : json,
    (exists rows, normalize cabinet_name cabinet_id price_item = Ok rows) <->
    (exists item,
        price_item = JDict item /\
        (Py.truthy (sizes_of item) = false \/
         exists entries, sizes_of item = JList entries /\ forallb is_object entries = true)).
Proof.
  intros price_item. split.
  - intros (rows & H). destruct price_item as [| | | | |item]; try discriminate H.
    exists item. split; [reflexivity|].
    unfold normalize in H. fold (sizes_of item) in H.
    destruct (Py.truthy (sizes_of item)) eqn:Ht; [right|now left].
    destruct (sizes_of item) as [| | |s|l|d]; try discriminate H; try discriminate Ht.
    + destruct s as [|c s]; [discriminate Ht|]. discriminate H.
    + exists l. split; [reflexivity|].
      cbn [Py.iter res_bind] in H. exact (size_rows_ok_objects _ _ _ _ _ H).
    + destruct d as [|[k v] d]; [discriminate Ht|]. discriminate H.
  - intros (item & -> & [Hfalsy|(entries & Hsizes & Hobj)]).
    + eexists. unfold normalize. fold (sizes_of item). rewrite Hfalsy. reflexivity.
    + unfold normalize. fold (sizes_of item). rewrite Hsizes.
      destruct entries as [|e entries].
      * eexists. reflexivity.
      * cbn [Py.truthy Py.iter res_bind].
        destruct (size_rows_pointwise cabinet_name cabinet_id item
                    (Py.or_ (Py.dict_get item "vendorCode" JNull)
                            (Py.dict_get item "vendor_code" JNull))
                    (Py.or_ (Py.dict_get item "nmID" JNull) (Py.dict_get item "nmId" JNull))
                    (e :: entries) Hobj) as (rows & Hrows & _).
        exists rows. exact Hrows.
Qed.

Lemma size_rows_of_cabinet :
  forall item vendor_code nm_id sizes rows,
    size_rows cabinet_name cabinet_id item vendor_code nm_id sizes = Ok rows ->
    Forall (row_of_cabinet cabinet_name cabinet_id) rows.
Proof.
  intros item vendor_code nm_id sizes.
  induction sizes as [|size rest IH]; intros rows H.
  - injection H as <-. constructor.
  - cbn [size_rows] in H.
    destruct size as [| | | | |sz]; try discriminate H.
    cbn [size_row res_bind] in H.
    destruct (size_rows cabinet_name cabinet_id item vendor_code nm_id rest) as [rs|e];
      [|discriminate H].
    injection H as <-. constructor; [|exact (IH rs eq_refl)].
    repeat split. now left.
Qed.

Lemma normalize_of_cabinet :
  forall price_item rows,
    normalize cabinet_name cabinet_id price_item = Ok rows ->
    Forall (row_of_cabinet cabinet_name cabinet_id) rows.
Proof.
  intros price_item rows H. destruct price_item as [| | | | |item]; try discriminate H.
  unfold normalize in H.
  destruct (Py.truthy (Py.dict_get item "sizes" (JList []))).
  - destruct (Py.iter (Py.dict_get item "sizes" (JList []))) as [entries|e];
      [|discriminate H].
    exact (size_rows_of_cabinet _ _ _ _ _ H).
  - injection H as <-. constructor; [|constructor]. repeat split. now left.
Qed.

Lemma normalize_all_of_cabinet :
  forall data rows,
    normalize_all cabinet_name cabinet_id data = Ok rows ->
    Forall (row_of_cabinet cabinet_name cabinet_id) rows.
Proof.
  induction data as [|price_item rest IH]; intros rows H.
  - injection H as <-. constructor.
  - cbn [normalize_all] in H.
    destruct (normalize cabinet_name cabinet_id price_item) as [rs|e] eqn:Hitem;
      [|discriminate H].
    cbn [res_bind] in H.
    destruct (normalize_all cabinet_name cabinet_id rest) as [rs'|e]; [|discriminate H].
    injection H as <-. apply Forall_app. split.
    + exact (normalize_of_cabinet _ _ Hitem).
    + exact (IH rs' eq_refl).
Qed.

Lemma error_rows_of_cabinet :
  forall batch, Forall (row_of_cabinet cabinet_name cabinet_id)
                  (map (error_row cabinet_name cabinet_id) batch).
Proof.
  intros batch. apply Forall_map, Forall_forall. intros code _.
  repeat split. now right.
Qed.

Section WithServer.

Variable srv : server.

Lemma batch_rows_of_cabinet :
  forall batch w rows w',
    batch_rows srv cabinet_name cabinet_id batch w = (Ok rows, w') ->
    Forall (row_of_cabinet cabinet_name cabinet_id) rows.
Proof.
  intros batch w rows w' H. unfold batch_rows, bind in H.
  destruct (get_prices_by_articles srv batch w) as [[prices_data|e] w1]; [|discriminate H].
  destruct prices_data as [[|g data]|].
  - injection H as <- _. apply error_rows_of_cabinet.
  - unfold lift in H. injection H as H _.
    apply (normalize_all_of_cabinet (g :: data)). exact H.
  - injection H as <- _. apply error_rows_of_cabinet.
Qed.

Lemma parse_batches_of_cabinet :
  forall bs acc w rows w',
    Forall (row_of_cabinet cabinet_name cabinet_id) acc ->
    parse_batches srv cabinet_name cabinet_id bs acc w = (Ok rows, w') ->
    Forall (row_of_cabinet cabinet_name cabinet_id) rows.
Proof.
  induction bs as [|batch rest IH]; intros acc w rows w' Hacc H.
  - injection H as <- _. exact Hacc.
  - cbn [parse_batches] in H. unfold bind in H.
    destruct (batch_rows srv cabinet_name cabinet_id batch w) as [[rs|e] w1] eqn:Hb;
      [|discriminate H].
    apply (IH _ _ _ _) with (2 := H). apply Forall_app. split; [exact Hacc|].
    exact (batch_rows_of_cabinet _ _ _ _ Hb).
Qed.

Lemma parse_rows_of_cabinet :
  forall read_articles w rows w',
    parse_basic_prices srv cabinet_name cabinet_id read_articles w = (Ok rows, w') ->
    Forall (row_of_cabinet cabinet_name cabinet_id) rows.
Proof.
  intros read_articles w rows w' H. unfold parse_basic_prices in H.
  destruct read_articles as [[|code codes]|].
  - injection H as <- _. constructor.
  - exact (parse_batches_of_cabinet _ _ _ _ _ (Forall_nil _) H).
  - injection H as <- _. constructor.
Qed.

(** X9: every row of a run of [parse_basic_prices] that completes carries
    the name and the id of the cabinet and has one of two sets of columns:
    the thirteen of a price row or the seven of an error row, which names
    its price columns differently ([discount_price], [price_with_card]). *)
Theorem parse_rows_have_fixed_columns :
  forall (read_articles : option (list string)) (w w' : world) (rows : list row),
    parse_basic_prices srv cabinet_name cabinet_id read_articles w = (Ok rows, w') ->
    forall r,
      In r rows ->
      Py.lookup "cabinet" r = Some (JStr cabinet_name) /\
      Py.lookup "cabinet_id" r = Some (JStr cabinet_id) /\
      (map fst r = price_columns \/ map fst r = error_columns).
Proof.
  intros read_articles w w' rows H r Hin.
  pose proof (parse_rows_of_cabinet _ _ _ _ H) as Hall.
  rewrite Forall_forall in Hall. exact (Hall r Hin).
Qed.

End WithServer.

End RowFacts.

(** X9, witness: two identifiers, one item returned, with two sizes. *)
Lemma parse_rows_have_fixed_columns_witness :
  exists r,
    Py.lookup "cabinet" r = Some (JStr "shop") /\
    Py.lookup "cabinet_id" r = Some (JStr "42") /\
    (map fst r = price_columns \/ map fst r = error_columns).
Proof.
  eexists.
  refine (parse_rows_have_fixed_columns "shop" "42"
            (always 50 200 (Some (envelope_listGoods [JDict item_two_sizes])) None)
            (Some ["115224606"; "115224607"]) initial_world _ _ eq_refl _
            (or_introl eq_refl)).
Defined.

(* ===================================================================== *)
(** ** Further properties: the content listing and the size prices *)
(* ===================================================================== *)

Section CatalogueFacts.

Variable srv : server.
Variable self : WildberriesAPI.
Hypothesis delay_not_negative : (0 <= request_delay self)%Z.

Lemma get_content_run :
  forall limit offset w,
    get_content srv self limit offset w =
    let w1 := after_request srv w (content_request limit offset) in
    let w2 := after_sleep w1 (request_delay self) in
    match result (srv w (content_request limit offset)) with
    | Failed => (Ok JNull, w1)
    | Responded r =>
        if is_error_status (status_code r) then (Ok JNull, w1)
        else
          match body r with
          | None => (Ok JNull, w2)
          | Some result_ =>
              if Py.truthy result_ then
                match Py.contains "data" result_ with
                | Ok true =>
                    match Py.getitem result_ "data" with
                    | Ok data => (json_get data "cards" (JList []), w2)
                    | Raise e => (Raise e, w2)
                    end
                | Ok false => (Ok JNull, w2)
                | Raise e => (Raise e, w2)
                end
              else (Ok JNull, w2)
          end
    end.
Proof.
  intros limit offset w. unfold get_content, bind, _make_request, bind.
  rewrite session_request_run.
  fold (base_request "POST" content_endpoint None
          (Some (JDict [("limit", JInt (Z.min limit 1000)); ("offset", JInt offset)])) 30).
  fold (content_request limit offset).
  destruct (result (srv w (content_request limit offset))) as [r|]; [|reflexivity].
  destruct (is_error_status (status_code r)); [reflexivity|].
  rewrite time_sleep_run.
  replace (request_delay self <? 0)%Z with false
    by (symmetry; apply Z.ltb_ge; exact delay_not_negative).
  cbv zeta.
  destruct (body r) as [result_|]; [|reflexivity].
  unfold ret. destruct (Py.truthy result_); [|reflexivity].
  unfold lift. destruct (Py.contains "data" result_) as [[|]|e]; reflexivity.
Qed.

(** X10: [get_content] sends one POST whose limit is at most 1000.  On a
    transport failure or a 4xx/5xx status it returns [None] without
    sleeping.  On a body that is an object it returns [None] when the key
    [data] is missing, the value of [cards] (the empty list when [cards] is
    missing) when [data] is an object, and raises [AttributeError] when
    [data] is anything else. *)
Theorem get_content_outcomes :
  forall (limit offset : Z) (w : world),
    let req := content_request limit offset in
    let w1 := after_request srv w req in
    let w2 := after_sleep w1 (request_delay self) in
    json_data req
      = Some (JDict [("limit", JInt (Z.min limit 1000)); ("offset", JInt offset)]) /\
    (Z.min limit 1000 <= 1000)%Z /\
    (result (srv w req) = Failed -> get_content srv self limit offset w = (Ok JNull, w1)) /\
    (forall r,
        result (srv w req) = Responded r ->
        is_error_status (status_code r) = true ->
        get_content srv self limit offset w = (Ok JNull, w1)) /\
    (forall r d,
        result (srv w req) = Responded r ->
        is_error_status (status_code r) = false ->
        body r = Some (JDict d) ->
        get_content srv self limit offset w =
        match Py.lookup "data" d with
        | None => (Ok JNull, w2)
        | Some (JDict data) => (Ok (Py.dict_get data "cards" (JList [])), w2)
        | Some _ => (Raise AttributeError, w2)
        end).
Proof.
  intros limit offset w req w1 w2.
  split; [reflexivity|]. split; [lia|]. split; [|split].
  - intros Hres. rewrite get_content_run. fold req. now rewrite Hres.
  - intros r Hres Herr. rewrite get_content_run. fold req. now rewrite Hres, Herr.
  - intros r d Hres Herr Hbody. rewrite get_content_run. fold req.
    rewrite Hres, Herr, Hbody. cbv zeta. fold w1. fold w2.
    destruct d as [|kv d']; [reflexivity|].
    cbn [Py.truthy Py.contains Py.getitem]. unfold Py.has_key.
    destruct (Py.lookup "data" (kv :: d')) as [data|]; [|reflexivity].
    destruct data; reflexivity.
Qed.

Lemma get_content_page :
  forall offset w ms cards,
    srv w (content_request 1000 offset) = page_reply ms cards ->
    get_content srv self 1000 offset w
    = (Ok (JList cards),
       after_sleep (after_request srv w (content_request 1000 offset)) (request_delay self)).
Proof.
  intros offset w ms cards Hreply. rewrite get_content_run, Hreply. reflexivity.
Qed.

Lemma full_page_not_short :
  forall cards,
    full_page cards = true ->
    Py.truthy (JList cards) = true /\ (Z.of_nat (List.length cards) <? 1000)%Z = false.
Proof.
  intros cards H. unfold full_page in H. apply Z.leb_le in H. split.
  - destruct cards; [cbn in H; lia|reflexivity].
  - apply Z.ltb_ge. lia.
Qed.

(** X12: while every page the server returns has a thousand cards or more,
    the loop of [get_all_products] goes on: whatever the number of
    iterations allowed, it has not returned when they are used up, and it
    has sent that many requests. *)
Theorem get_all_products_never_ends_on_full_pages :
  full_pages_forever srv ->
  forall (fuel : nat) (w : world),
    exists w',
      get_all_products srv fuel self w = (Ok None, w') /\
      List.length (requests_of (trace w')) = (List.length (requests_of (trace w)) + fuel)%nat.
Proof.
  intros Hfull fuel. unfold get_all_products. generalize (@nil json) 0%Z.
  induction fuel as [|fuel IH]; intros acc offset w.
  - exists w. split; [reflexivity|lia].
  - destruct (Hfull w (content_request 1000 offset)) as (ms & cards & Hreply & Hcards).
    destruct (full_page_not_short _ Hcards) as [Htruthy Hlong].
    destruct (IH (acc ++ cards) (offset + 1000)%Z
                (after_sleep (after_request srv w (content_request 1000 offset))
                   (request_delay self))) as (w' & Hrun & Hlen).
    exists w'. split.
    + cbn [get_all_products_loop]. unfold bind at 1.
      rewrite (get_content_page _ _ _ _ Hreply), Htruthy.
      unfold bind, lift. cbn [Py.iter]. rewrite Hlong. exact Hrun.
    + rewrite Hlen, requests_of_after_sleep, requests_of_after_request, length_app.
      cbn [List.length]. lia.
Qed.

End CatalogueFacts.

Section PagingFacts.

Variable self : WildberriesAPI.
Hypothesis delay_not_negative : (0 <= request_delay self)%Z.

Lemma loop_over_pages :
  forall ms default last full pre acc offset fuel w,
    forallb full_page full = true ->
    full_page last = false ->
    List.length pre = List.length (requests_of (trace w)) ->
    (List.length full < fuel)%nat ->
    exists w',
      get_all_products_loop (scripted (pre ++ map (page_reply ms) (full ++ [last])) default)
        fuel self acc offset w
      = (Ok (Some (acc ++ List.concat full ++ last)), w') /\
      requests_of (trace w')
      = requests_of (trace w)
        ++ map (fun k => content_request 1000 (offset + 1000 * Z.of_nat k))
             (seq 0 (S (List.length full))).
Proof.
  intros ms default last.
  induction full as [|p full IH]; intros pre acc offset fuel w Hfull Hlast Hpre Hfuel.
  - destruct fuel as [|fuel]; [cbn in Hfuel; lia|].
    set (srv := scripted (pre ++ map (page_reply ms) ([] ++ [last])) default).
    assert (Hreply : srv w (content_request 1000 offset) = page_reply ms last).
    { unfold srv, scripted. rewrite <- Hpre. cbn [app map]. apply nth_middle. }
    eexists. split.
    + cbn [get_all_products_loop]. unfold bind at 1.
      rewrite (get_content_page srv self delay_not_negative _ _ _ _ Hreply).
      unfold full_page in Hlast. apply Z.leb_gt in Hlast.
      destruct last as [|c last].
      * cbn. now rewrite app_nil_r.
      * cbn [Py.truthy]. unfold bind, lift. cbn [Py.iter].
        replace (Z.of_nat (List.length (c :: last)) <? 1000)%Z with true
          by (symmetry; apply Z.ltb_lt; lia).
        reflexivity.
    + rewrite requests_of_after_sleep, requests_of_after_request.
      cbn [seq map List.length]. now rewrite Z.add_0_r.
  - destruct fuel as [|fuel]; [cbn in Hfuel; lia|].
    cbn [forallb] in Hfull. apply andb_true_iff in Hfull as [Hp Hfull].
    destruct (full_page_not_short _ Hp) as [Htruthy Hlong].
    set (srv := scripted (pre ++ map (page_reply ms) ((p :: full) ++ [last])) default).
    assert (Hreply : srv w (content_request 1000 offset) = page_reply ms p).
    { unfold srv, scripted. rewrite <- Hpre. cbn [app map]. apply nth_middle. }
    set (w1 := after_sleep (after_request srv w (content_request 1000 offset))
                 (request_delay self)).
    destruct (IH (pre ++ [page_reply ms p]) (acc ++ p) (offset + 1000)%Z fuel w1 Hfull Hlast)
      as (w' & Hrun & Hreq).
    { unfold w1. rewrite requests_of_after_sleep, requests_of_after_request.
      rewrite !length_app, Hpre. reflexivity. }
    { cbn in Hfuel. lia. }
    exists w'. split.
    + cbn [get_all_products_loop]. unfold bind at 1.
      rewrite (get_content_page srv self delay_not_negative _ _ _ _ Hreply), Htruthy.
      unfold bind, lift. cbn [Py.iter]. rewrite Hlong. fold w1.
      unfold srv. cbn [app map]. cbn [app map] in Hrun.
      rewrite <- app_assoc in Hrun. cbn [app] in Hrun. rewrite Hrun.
      cbn [List.concat]. now rewrite <- !app_assoc.
    + rewrite Hreq. unfold w1.
      rewrite requests_of_after_sleep, requests_of_after_request, <- app_assoc.
      f_equal. cbn [List.length]. rewrite <- (cons_seq (S (List.length full))).
      cbn [map app]. rewrite Z.add_0_r. f_equal.
      rewrite <- seq_shift, map_map. apply map_ext. intros k.
      f_equal. lia.
Qed.

(** X11: when the server answers the successive requests with pages of a
    thousand cards or more and then with a shorter page, [get_all_products]
    returns, given enough iterations, the cards of all these pages in
    order, having asked for the offsets 0, 1000, 2000, ... once each and
    for nothing after the short page. *)
Theorem get_all_products_concatenates_pages :
  forall (ms : N) (default : reply) (full : list (list json)) (last : list json)
         (fuel : nat),
    forallb full_page full = true ->
    full_page last = false ->
    (List.length full < fuel)%nat ->
    exists w',
      get_all_products (scripted (map (page_reply ms) (full ++ [last])) default)
        fuel self initial_world
      = (Ok (Some (List.concat full ++ last)), w') /\
      requests_of (trace w')
      = map (fun k => content_request 1000 (1000 * Z.of_nat k))
          (seq 0 (S (List.length full))).
Proof.
  intros ms default full last fuel Hfull Hlast Hfuel.
  destruct (loop_over_pages ms default last full [] [] 0%Z fuel initial_world
              Hfull Hlast eq_refl Hfuel) as (w' & Hrun & Hreq).
  exists w'. split; [exact Hrun|exact Hreq].
Qed.

End PagingFacts.

Section SizePricesFacts.

Variable srv : server.
Variable self : WildberriesAPI.

(** X13: [get_prices_by_nm_id], as the class keeps it (its second
    definition), sends one GET with the parameter [nm] and, with a delay
    that is not negative, never raises.  It sleeps [request_delay] only
    when the status is outside 400..599 and the body is JSON, and then
    returns the body; in every other case it returns [None] at once.  A
    body that is not JSON is thus not followed by a sleep here, while it is
    in [_make_request]. *)
Theorem size_prices_sleep_after_decoded_body_only :
  (0 <= request_delay self)%Z ->
  forall (nm_id : Z) (w : world),
    let w1 := after_request srv w (get_size_prices nm_id) in
    params (get_size_prices nm_id) = Some (JDict [("nm", JInt nm_id)]) /\
    get_prices_by_nm_id srv self nm_id w =
    match result (srv w (get_size_prices nm_id)) with
    | Failed => (Ok JNull, w1)
    | Responded r =>
        if is_error_status (status_code r) then (Ok JNull, w1)
        else
          match body r with
          | None => (Ok JNull, w1)
          | Some v => (Ok v, after_sleep w1 (request_delay self))
          end
    end /\
    (forall r,
        result (srv w (base_request "GET" size_endpoint None None 30)) = Responded r ->
        is_error_status (status_code r) = false ->
        body r = None ->
        _make_request srv self "GET" size_endpoint None None 30 w
        = (Ok JNull,
           after_sleep (after_request srv w (base_request "GET" size_endpoint None None 30))
             (request_delay self))).
Proof.
  intros Hdelay nm_id w w1. split; [reflexivity|]. split.
  - unfold get_prices_by_nm_id, bind. rewrite session_request_run. fold w1.
    destruct (result (srv w (get_size_prices nm_id))) as [r|]; [|reflexivity].
    destruct (is_error_status (status_code r)); [reflexivity|].
    destruct (body r) as [v|]; [|reflexivity].
    rewrite time_sleep_run.
    replace (request_delay self <? 0)%Z with false
      by (symmetry; apply Z.ltb_ge; exact Hdelay).
    reflexivity.
  - intros r Hres Herr Hbody. unfold _make_request, bind.
    rewrite session_request_run.
    fold (base_request "GET" size_endpoint None None 30).
    rewrite Hres, Herr, time_sleep_run.
    replace (request_delay self <? 0)%Z with false
      by (symmetry; apply Z.ltb_ge; exact Hdelay).
    now rewrite Hbody.
Qed.

End SizePricesFacts.

(** X8, witness: an item with two size objects. *)
Lemma normalize_succeeds_iff_witness :
  exists rows, normalize "shop" "42" (JDict item_two_sizes) = Ok rows.
Proof.
  apply (proj2 (normalize_succeeds_iff "shop" "42" (JDict item_two_sizes))).
  exists item_two_sizes. split; [reflexivity|]. right.
  eexists. split; reflexivity.
Defined.

(** X10, witness: a limit of 5000 is sent as 1000; the cards come back
    after the delay. *)
Lemma get_content_outcomes_witness :
  get_content (always 20 200 (Some (envelope_cards [card 1])) None) (init "key" 500)
    5000 0 initial_world
  = (Ok (JList [card 1]),
     {| now := 520; trace := [Sent 0 (content_request 5000 0); Slept 20 500] |}).
Proof.
  exact (proj2 (proj2 (proj2 (proj2
           (get_content_outcomes (always 20 200 (Some (envelope_cards [card 1])) None)
              (init "key" 500) ltac:(cbn; lia) 5000 0 initial_world))))
           {| status_code := 200; body := Some (envelope_cards [card 1]);
              retry_after := None |}
           [("data", JDict [("cards", JList [card 1])])] eq_refl eq_refl eq_refl).
Defined.

(** X11, witness: a page of a thousand cards, then a page of one. *)
Lemma get_all_products_concatenates_pages_witness :
  exists w',
    get_all_products
      (scripted (map (page_reply 20) ([thousand_cards] ++ [[card 2]])) (answer 20 500 None None))
      2 (init "key" 500) initial_world
    = (Ok (Some (List.concat [thousand_cards] ++ [card 2])), w') /\
    requests_of (trace w')
    = map (fun k => content_request 1000 (1000 * Z.of_nat k)) (seq 0 2).
Proof.
  exact (get_all_products_concatenates_pages (init "key" 500) ltac:(cbn; lia)
           20 (answer 20 500 None None) [thousand_cards] [card 2] 2
           eq_refl eq_refl ltac:(cbn; lia)).
Defined.

Lemma thousand_cards_forever :
  full_pages_forever (always 20 200 (Some (envelope_cards thousand_cards)) None).
Proof. intros w req. exists 20%N, thousand_cards. split; reflexivity. Defined.

(** X12, witness: three iterations allowed, three requests sent, no
    result. *)
Lemma get_all_products_never_ends_on_full_pages_witness :
  exists w',
    get_all_products (always 20 200 (Some (envelope_cards thousand_cards)) None)
      3 (init "key" 500) initial_world = (Ok None, w') /\
    List.length (requests_of (trace w')) = 3%nat.
Proof.
  exact (get_all_products_never_ends_on_full_pages
           (always 20 200 (Some (envelope_cards thousand_cards)) None)
           (init "key" 500) ltac:(cbn; lia) thousand_cards_forever 3 initial_world).
Defined.

(** X13, witness: a 200 whose body is not JSON. *)
Lemma size_prices_sleep_after_decoded_body_only_witness :
  get_prices_by_nm_id (always 20 200 None None) (init "key" 500) 115224606 initial_world
  = (Ok JNull, {| now := 20; trace := [Sent 0 (get_size_prices 115224606)] |}) /\
  _make_request (always 20 200 None None) (init "key" 500) "GET" size_endpoint None None 30
    initial_world
  = (Ok JNull,
     {| now := 520;
        trace := [Sent 0 (base_request "GET" size_endpoint None None 30); Slept 20 500] |}).
Proof.
  destruct (size_prices_sleep_after_decoded_body_only (always 20 200 None None)
              (init "key" 500) ltac:(cbn; lia) 115224606 initial_world) as (_ & Hnm & Hmk).
  split; [exact Hnm|].
  exact (Hmk {| status_code := 200; body := None; retry_after := None |}
           eq_refl eq_refl eq_refl).
Defined.

(* ===================================================================== *)
(** ** Further properties: the loop over the cabinets *)
(* ===================================================================== *)

Section MainFacts.

Variable srv : server.
Variable read_articles : option (list string).
Variable wb_cabinet_ids : list (string * option string).

Lemma process_cabinet_total :
  forall cabinet_name cabinet_id acc w,
    exists added w',
      process_cabinet srv read_articles cabinet_name cabinet_id acc w = (Ok (acc ++ added), w') /\
      Forall (row_of_cabinet cabinet_name cabinet_id) added.
Proof.
  intros cabinet_name cabinet_id acc w. unfold process_cabinet, catch, bind.
  destruct (parse_basic_prices srv cabinet_name cabinet_id read_articles w)
    as [[rows|e] w1] eqn:Hparse.
  - exists rows, w1. split; [reflexivity|].
    exact (parse_rows_of_cabinet _ _ _ _ _ _ _ Hparse).
  - exists [], w1. split; [unfold ret; now rewrite app_nil_r|constructor].
Qed.

Lemma process_cabinets_skip :
  forall c rest acc w,
    eligible wb_cabinet_ids c = false ->
    process_cabinets srv read_articles wb_cabinet_ids (c :: rest) acc w
    = process_cabinets srv read_articles wb_cabinet_ids rest acc w.
Proof.
  intros [cabinet_name key] rest acc w Hc. unfold eligible in Hc. cbn [fst snd] in Hc.
  cbn [process_cabinets]. destruct (missing key); [reflexivity|].
  cbn [negb andb] in Hc. apply negb_false_iff in Hc. now rewrite Hc.
Qed.

Lemma process_cabinets_step :
  forall c rest acc w,
    eligible wb_cabinet_ids c = true ->
    process_cabinets srv read_articles wb_cabinet_ids (c :: rest) acc w
    = bind (process_cabinet srv read_articles (fst c) (id_of wb_cabinet_ids (fst c)) acc)
        (fun acc' => process_cabinets srv read_articles wb_cabinet_ids rest acc') w.
Proof.
  intros [cabinet_name key] rest acc w Hc. unfold eligible in Hc. cbn [fst snd] in Hc.
  apply andb_true_iff in Hc as [Hkey Hid]. apply negb_true_iff in Hkey, Hid.
  cbn [process_cabinets fst]. now rewrite Hkey, Hid.
Qed.

(** X14: the loop over the cabinets never raises, whatever happens while a
    cabinet is processed.  It only adds rows to those it has; every row it
    adds carries the name of a cabinet that has both a key and an id, and
    that id; a cabinet without a key or without an id is passed over with
    no request and no row. *)
Theorem process_cabinets_isolates_failures :
  forall (wb_api_keys : list (string * option string)) (acc : list row) (w : world),
    (exists added w',
        process_cabinets srv read_articles wb_cabinet_ids wb_api_keys acc w
        = (Ok (acc ++ added), w') /\
        forall r,
          In r added ->
          exists c,
            In c wb_api_keys /\ eligible wb_cabinet_ids c = true /\
            row_of_cabinet (fst c) (id_of wb_cabinet_ids (fst c)) r) /\
    (forall c,
        eligible wb_cabinet_ids c = false ->
        process_cabinets srv read_articles wb_cabinet_ids (c :: wb_api_keys) acc w
        = process_cabinets srv read_articles wb_cabinet_ids wb_api_keys acc w).
Proof.
  intros wb_api_keys acc w. split.
  2:{ intros c Hc. apply process_cabinets_skip. exact Hc. }
  revert acc w. induction wb_api_keys as [|c rest IH]; intros acc w.
  - exists [], w. split; [cbn; unfold ret; now rewrite app_nil_r|].
    intros r Hin. destruct Hin.
  - destruct (eligible wb_cabinet_ids c) eqn:Hc.
    + rewrite (process_cabinets_step _ _ _ _ Hc). unfold bind.
      destruct (process_cabinet_total (fst c) (id_of wb_cabinet_ids (fst c)) acc w)
        as (added1 & w1 & Hstep & Hrows1).
      rewrite Hstep.
      destruct (IH (acc ++ added1) w1) as (added2 & w2 & Hrest & Hrows2).
      exists (added1 ++ added2), w2. split; [now rewrite Hrest, app_assoc|].
      intros r Hin. apply in_app_or in Hin as [Hin|Hin].
      * exists c. split; [now left|]. split; [exact Hc|].
        rewrite Forall_forall in Hrows1. exact (Hrows1 r Hin).
      * destruct (Hrows2 r Hin) as (c' & Hc' & Hel & Hrow).
        exists c'. split; [now right|]. split; assumption.
    + rewrite (process_cabinets_skip _ _ _ _ Hc).
      destruct (IH acc w) as (added & w' & Hrest & Hrows).
      exists added, w'. split; [exact Hrest|].
      intros r Hin. destruct (Hrows r Hin) as (c' & Hc' & Hel & Hrow).
      exists c'. split; [now right|]. split; assumption.
Qed.

Lemma quiet_parse_basic_prices :
  quiet srv ->
  forall cabinet_name cabinet_id vendor_codes w,
    exists w',
      parse_basic_prices srv cabinet_name cabinet_id (Some vendor_codes) w
      = (Ok (map (error_row cabinet_name cabinet_id) vendor_codes), w').
Proof.
  intros Hquiet cabinet_name cabinet_id vendor_codes w. unfold parse_basic_prices.
  destruct vendor_codes as [|code rest] eqn:Hcodes.
  - exists w. reflexivity.
  - rewrite <- Hcodes.
    destruct (quiet_parse_batches srv cabinet_name cabinet_id Hquiet
                (batches vendor_codes) [] w) as (w' & Hrun).
    exists w'. rewrite Hrun, concat_batches. reflexivity.
Qed.

End MainFacts.

(** X15: when the server never yields data - every request fails or is
    answered with a status other than 200, and a [Retry-After] header, when
    there is one, is an integer that is not negative - the loop over the
    cabinets ends with one error row for every pair of a cabinet that has a
    key and an id and an identifier of the articles file, cabinet by cabinet
    in the order of the keys and identifier by identifier in the order of
    the file, each row carrying the name and id of its cabinet. *)
Theorem process_cabinets_error_rows_when_no_data :
  forall (srv : server) (vendor_codes : list string)
         (wb_cabinet_ids wb_api_keys : list (string * option string))
         (acc : list row) (w : world),
    quiet srv ->
    exists w',
      process_cabinets srv (Some vendor_codes) wb_cabinet_ids wb_api_keys acc w
      = (Ok (acc ++
             flat_map (fun c => map (error_row (fst c) (id_of wb_cabinet_ids (fst c)))
                                 vendor_codes)
               (filter (eligible wb_cabinet_ids) wb_api_keys)),
         w').
Proof.
  intros srv vendor_codes wb_cabinet_ids wb_api_keys acc w Hquiet. revert acc w.
  induction wb_api_keys as [|c rest IH]; intros acc w.
  - exists w. cbn. unfold ret. now rewrite app_nil_r.
  - cbn [filter]. destruct (eligible wb_cabinet_ids c) eqn:Hc.
    + rewrite (process_cabinets_step _ _ _ _ _ _ _ Hc). unfold bind.
      destruct (quiet_parse_basic_prices srv Hquiet (fst c) (id_of wb_cabinet_ids (fst c))
                  vendor_codes w) as (w1 & Hparse).
      unfold process_cabinet, catch, bind. rewrite Hparse. unfold ret.
      destruct (IH (acc ++ map (error_row (fst c) (id_of wb_cabinet_ids (fst c)))
                             vendor_codes) w1) as (w2 & Hrest).
      exists w2. rewrite Hrest. cbn [flat_map]. now rewrite app_assoc.
    + rewrite (process_cabinets_skip _ _ _ _ _ _ _ Hc). apply IH.
Qed.

(** X15, witness: three cabinets, of which one has no key and one no id, and
    two identifiers. *)
Lemma process_cabinets_error_rows_when_no_data_witness :
  exists w',
    process_cabinets (always 50 500 None None) (Some ["SKU-1"; "115224606"])
      [("north", Some "42"); ("south", Some "43")]
      [("north", Some "key-n"); ("south", None); ("east", Some "key-e")]
      [] initial_world
    = (Ok [error_row "north" "42" "SKU-1"; error_row "north" "42" "115224606"], w').
Proof.
  exact (process_cabinets_error_rows_when_no_data (always 50 500 None None)
           ["SKU-1"; "115224606"]
           [("north", Some "42"); ("south", Some "43")]
           [("north", Some "key-n"); ("south", None); ("east", Some "key-e")]
           [] initial_world always_500_quiet).
Defined.

(* ===================================================================== *)
(** ** Further properties: the normal form of an identifier *)
(* ===================================================================== *)

Lemma rstrip_end :
  forall s,
    rstrip s = EmptyString \/
    exists c r, rstrip s = String c r /\ is_space (last_char c r) = false.
Proof.
  induction s as [|c s IH]; [now left|].
  cbn [rstrip]. destruct IH as [->|(c' & r & -> & Hlast)].
  - destruct (is_space c) eqn:Hc; [now left|].
    right. exists c, EmptyString. split; [reflexivity|exact Hc].
  - right. exists c, (String c' r). split; [reflexivity|exact Hlast].
Qed.

Lemma rstrip_keeps_head :
  forall c s, is_space c = false -> exists r, rstrip (String c s) = String c r.
Proof.
  intros c s Hc. cbn [rstrip]. destruct (rstrip s).
  - rewrite Hc. now exists EmptyString.
  - eexists. reflexivity.
Qed.

Lemma lstrip_head :
  forall s,
    lstrip s = EmptyString \/ exists c r, lstrip s = String c r /\ is_space c = false.
Proof.
  induction s as [|c s IH]; [now left|].
  cbn [lstrip]. destruct (is_space c) eqn:Hc; [exact IH|].
  right. exists c, s. split; [reflexivity|exact Hc].
Qed.

Lemma strip_trimmed : forall s, trimmed (strip s) = true.
Proof.
  intros s. unfold strip.
  destruct (lstrip_head s) as [->|(c & r & -> & Hc)]; [reflexivity|].
  destruct (rstrip_keeps_head c r Hc) as (r' & Hr').
  destruct (rstrip_end (String c r)) as [Hnil|(c2 & r2 & Heq & Hlast)];
    [rewrite Hr' in Hnil; discriminate Hnil|].
  rewrite Heq. rewrite Hr' in Heq. injection Heq as <- <-.
  cbn [trimmed]. now rewrite Hc, Hlast.
Qed.

Lemma last_char_digit :
  forall s c, is_digit c = true -> all_digits s = true -> is_digit (last_char c s) = true.
Proof.
  induction s as [|c' s IH]; intros c Hc Hs; [exact Hc|].
  cbn in Hs. apply andb_true_iff in Hs as [Hc' Hs]. cbn. exact (IH c' Hc' Hs).
Qed.

Lemma digits_trimmed : forall g, isdigit g = true -> trimmed g = true.
Proof.
  intros [|c g] H; [reflexivity|].
  cbn in H. apply andb_true_iff in H as [Hc Hg]. cbn [trimmed].
  rewrite (digit_not_space c Hc), (digit_not_space _ (last_char_digit g c Hc Hg)).
  reflexivity.
Qed.

(** X16: the normal form of an identifier is either a string of digits or
    the trimmed input, and in both cases it neither begins nor ends with a
    blank; what is extracted from an URL is always numeric, and so goes to
    Strategy A. *)
Theorem extract_result_numeric_or_trimmed :
  forall article : string,
    (isdigit (_extract_article_from_url article) = true \/
     _extract_article_from_url article = strip article) /\
    trimmed (_extract_article_from_url article) = true.
Proof.
  intros article.
  assert (H : isdigit (_extract_article_from_url article) = true \/
              _extract_article_from_url article = strip article).
  { unfold _extract_article_from_url.
    destruct (startswith article "http"); [|now right].
    destruct (Re.search Re.catalog_here article) as [g|] eqn:Hcat.
    - left. apply (search_found_leftmost _ _ catalog_here_spec) in Hcat.
      destruct Hcat as (pre & s & _ & (rest & _ & Hg) & _). exact Hg.
    - destruct (Re.search Re.segment_here article) as [g|] eqn:Hseg; [|now right].
      left. apply (search_found_leftmost _ _ segment_here_spec) in Hseg.
      destruct Hseg as (pre & s & _ & (rest & _ & Hg & _) & _). exact Hg. }
  split; [exact H|].
  destruct H as [Hd | ->]; [exact (digits_trimmed _ Hd)|apply strip_trimmed].
Qed.

(** X1, witness: 250 identifiers make three batches, the first of 100. *)
Lemma batches_partition_witness :
  List.length (batches (numeric_ids 250)) = 3%nat /\
  exists b, nth_error (batches (numeric_ids 250)) 0 = Some b /\ List.length b = 100%nat.
Proof.
  destruct (batches_partition string (numeric_ids 250)) as (_ & Hcount & Hsizes).
  split; [exact Hcount|].
  eexists. split; [reflexivity|].
  refine (proj2 (Hsizes 0%nat _ eq_refl) _).
  rewrite Hcount. apply Nat.ltb_lt. reflexivity.
Defined.

(** X14, witness: a body that is the number 5 makes the fetcher raise
    [TypeError]; the loop goes on and returns, and a cabinet without a key
    is passed over. *)
Lemma process_cabinets_isolates_failures_witness :
  (exists added w',
      process_cabinets (always 50 200 (Some (JInt 5)) None) (Some ["115224606"])
        [("north", Some "42"); ("east", Some "44")]
        [("north", Some "key-n"); ("east", Some "key-e")] [] initial_world
      = (Ok ([] ++ added), w')) /\
  process_cabinets (always 50 200 (Some (JInt 5)) None) (Some ["115224606"])
    [("north", Some "42"); ("east", Some "44")]
    [("south", None); ("north", Some "key-n"); ("east", Some "key-e")] [] initial_world
  = process_cabinets (always 50 200 (Some (JInt 5)) None) (Some ["115224606"])
      [("north", Some "42"); ("east", Some "44")]
      [("north", Some "key-n"); ("east", Some "key-e")] [] initial_world.
Proof.
  destruct (process_cabinets_isolates_failures
              (always 50 200 (Some (JInt 5)) None) (Some ["115224606"])
              [("north", Some "42"); ("east", Some "44")]
              [("north", Some "key-n"); ("east", Some "key-e")] [] initial_world)
    as ((added & w' & Hrun & _) & Hskip).
  split.
  - exists added, w'. exact Hrun.
  - exact (Hskip ("south", None) eq_refl).
Defined.

(* ===================================================================== *)
(** ** Further properties: a Retry-After that cannot be slept *)
(* ===================================================================== *)

Lemma batches_head :
  forall (A : Type) (l : list A),
    l <> [] -> exists rest, batches l = firstn batch_size l :: rest.
Proof.
  intros A l Hne.
  assert (Hpos : (0 < (List.length l + batch_size - 1) / batch_size)%nat).
  { unfold batch_size. destruct l as [|a l]; [contradiction|]. cbn [List.length].
    apply Nat.div_str_pos. lia. }
  pose proof (batches_nth A l 0 Hpos) as Hnth.
  destruct (batches l) as [|b rest]; [discriminate Hnth|].
  cbn in Hnth. injection Hnth as ->. now exists rest.
Qed.

(** X18: when the first batch of Strategy A is answered 429 with a
    [Retry-After] header that is not an integer (an HTTP date) or is
    negative, [get_prices_by_articles] raises [ValueError], which it does
    not catch, right after that one request: nothing is slept and no other
    request is sent. *)
Theorem fetch_raises_on_bad_retry_after :
  forall (srv : server) (articles : list string) (w : world) (r : response),
    numeric_of articles <> [] ->
    result (srv w (post_of_batch (firstn batch_size (numeric_of articles)))) = Responded r ->
    status_code r = 429%Z ->
    bad_retry (retry_after r) = true ->
    get_prices_by_articles srv articles w
    = (Raise ValueError,
       after_request srv w (post_of_batch (firstn batch_size (numeric_of articles)))).
Proof.
  intros srv articles w r Hne Hres Hstatus Hbad.
  destruct (batches_head _ _ Hne) as (rest & Hbatches).
  set (st0 := {| all_results := []; request_count := 0; start_time := now w |}).
  assert (Hpost : post_batch srv (firstn batch_size (numeric_of articles)) st0 w
                  = (Raise ValueError,
                     after_request srv w
                       (post_of_batch (firstn batch_size (numeric_of articles))))).
  { unfold post_batch, bind.
    change (window_check st0 w) with (@ret loop_state st0 w). unfold ret at 1.
    rewrite session_request_run.
    fold (post_of_batch (firstn batch_size (numeric_of articles))).
    rewrite Hres, Hstatus. cbn [Z.eqb Pos.eqb]. unfold lift.
    destruct (retry_after r) as [[n|]|]; cbn [bad_retry] in Hbad;
      try discriminate Hbad; cbn [retry_seconds].
    - rewrite time_sleep_run. apply Z.ltb_lt in Hbad.
      replace (1000 * n <? 0)%Z with true by (symmetry; apply Z.ltb_lt; lia).
      reflexivity.
    - reflexivity. }
  unfold get_prices_by_articles, bind, strategy_A_phase, bind, time_time.
  fold (numeric_of articles). fold st0.
  destruct (numeric_of articles) as [|a l] eqn:Hnum; [contradiction|].
  rewrite <- Hnum in *. rewrite Hbatches.
  cbn [strategy_A]. unfold bind. rewrite Hpost. reflexivity.
Qed.

(** X18, witness: one identifier and a 429 whose [Retry-After] is an HTTP
    date. *)
Lemma fetch_raises_on_bad_retry_after_witness :
  get_prices_by_articles throttle_with_date ["115224606"] initial_world
  = (Raise ValueError, {| now := 50; trace := [Sent 0 (post_of_batch ["115224606"])] |}).
Proof.
  exact (fetch_raises_on_bad_retry_after throttle_with_date ["115224606"] initial_world
           {| status_code := 429; body := None; retry_after := Some Unparsable |}
           ltac:(discriminate) eq_refl eq_refl eq_refl).
Defined.
